(** * TermiGPT / AskIt: the request dispatcher, the chat loops and the
      full-screen transcript save, as a shallow embedding.

    Three programs live in the repository:
    - [Askit]    : the AskIt command line (src/ui.js, second document, lines 93-335);
    - [Termigpt] : the TermiGPT command line (src/ui.jsx, lines 1-233);
    - [InkUI]    : the full-screen Ink front end (src/ui.js, lines 1-92).

    JavaScript strings are modelled by [string]: each character stands for
    one UTF-16 code unit in the range 0..255.  JavaScript values are the
    inductive [JSValue]; exceptions are explicit ([Completion]); the network,
    the terminal and the log files are an explicit [World] that every
    effectful function threads through. *)

From Stdlib Require Import String Ascii List Bool Arith NArith Lia.
From Stdlib Require Import DecimalString.
From Stdlib Require DecimalPos DecimalN.
From Equations Require Import Equations.
Import ListNotations.
Local Open Scope string_scope.

(* ===================================================================== *)
(** ** The JavaScript runtime the programs rely on *)
(* ===================================================================== *)

Module JS.

(** The line feed written [\n] in the sources. *)
Definition LF : string := String (ascii_of_nat 10) EmptyString.

(** The double quote, for JSON texts. *)
Definition DQ : string := String (ascii_of_nat 34) EmptyString.

(** [String.prototype.toLowerCase] on one code unit below 256: the ASCII
    capitals and the Latin-1 capitals (U+00C0..U+00DE, U+00D7 excepted). *)
Definition lowerUnit (c : ascii) : ascii :=
  let n := nat_of_ascii c in
  if (((65 <=? n) && (n <=? 90))
      || ((192 <=? n) && (n <=? 222) && negb (n =? 215)))%nat
  then ascii_of_nat (n + 32) else c.

Fixpoint toLowerCase (s : string) : string :=
  match s with
  | EmptyString => EmptyString
  | String c rest => String (lowerUnit c) (toLowerCase rest)
  end.

(** [s.includes(needle)]. *)
Fixpoint includes (s needle : string) : bool :=
  String.prefix needle s
  || match s with
     | EmptyString => false
     | String _ rest => includes rest needle
     end.

(** [s.substring(0, n)]. *)
Definition substring0 (n : nat) (s : string) : string := String.substring 0 n s.

(** White space and line terminators that [trim] strips, below 256:
    TAB, LF, VT, FF, CR, SPACE and NBSP. *)
Definition isSpace (c : ascii) : bool :=
  let n := nat_of_ascii c in
  (((9 <=? n) && (n <=? 13)) || (n =? 32) || (n =? 160))%nat.

Fixpoint trimStart (s : string) : string :=
  match s with
  | EmptyString => EmptyString
  | String c rest => if isSpace c then trimStart rest else s
  end.

(** Strips trailing white space: a character is kept when something that is
    not white space follows it or when it is not white space itself. *)
Fixpoint trimEnd (s : string) : string :=
  match s with
  | EmptyString => EmptyString
  | String c rest =>
      match trimEnd rest with
      | EmptyString => if isSpace c then EmptyString else String c EmptyString
      | kept => String c kept
      end
  end.

(** [s.trim()]. *)
Definition trim (s : string) : string := trimEnd (trimStart s).

(** Decimal rendering of a non-negative integer, as a template literal
    renders an integral Number. *)
Definition decimal (n : nat) : string := NilZero.string_of_uint (Nat.to_uint n).

(** JavaScript values that can reach the programs: what [JSON.parse] builds,
    [undefined], and the members of [Object.prototype] that a property read
    on a plain object can return.  A Number is carried as the text that
    [Number::toString] gives for it; the programs only test a Number for
    truthiness and render it inside template literals. *)
#[warnings="-register-all"]
Inductive JSValue : Type :=
| JUndefined
| JNull
| JBool (b : bool)
| JNumber (shown : string)
| JString (s : string)
| JArray (items : list JSValue)
| JObject (props : list (string * JSValue))
| JBuiltin (name : string)
| JObjectPrototype.

(** What a [throw] can carry in these programs. *)
Inductive JSError : Type :=
| Error (message : string)
| TypeErrorNotAConstructor
| TypeErrorToPrimitive
| SyntaxErrorJSON
| FetchError.

(** The outcome of evaluating code that may throw. *)
Inductive Completion (A : Type) : Type :=
| Return (a : A)
| Throw (e : JSError).
Arguments Return {A} a.
Arguments Throw {A} e.

Definition bind {A B} (c : Completion A) (k : A -> Completion B) : Completion B :=
  match c with
  | Return a => k a
  | Throw e => Throw e
  end.

(** [ToBoolean]. *)
Definition truthy (v : JSValue) : bool :=
  match v with
  | JUndefined | JNull => false
  | JBool b => b
  | JNumber shown => negb (shown =? "0") && negb (shown =? "NaN")
  | JString s => negb (s =? "")
  | JArray _ | JObject _ | JBuiltin _ | JObjectPrototype => true
  end.

(** [a || b]. *)
Definition or_else (a b : JSValue) : JSValue := if truthy a then a else b.

(** First binding of [key] in a property list. *)
Fixpoint assoc (key : string) (props : list (string * JSValue)) : option JSValue :=
  match props with
  | [] => None
  | (k, v) :: rest => if k =? key then Some v else assoc key rest
  end.

(** The properties of [Object.prototype]: eleven functions and the
    [__proto__] accessor, which on a plain object reads as
    [Object.prototype] itself. *)
Definition Object_prototype : list (string * JSValue) :=
  [ ("constructor", JBuiltin "Object");
    ("__defineGetter__", JBuiltin "__defineGetter__");
    ("__defineSetter__", JBuiltin "__defineSetter__");
    ("hasOwnProperty", JBuiltin "hasOwnProperty");
    ("__lookupGetter__", JBuiltin "__lookupGetter__");
    ("__lookupSetter__", JBuiltin "__lookupSetter__");
    ("isPrototypeOf", JBuiltin "isPrototypeOf");
    ("propertyIsEnumerable", JBuiltin "propertyIsEnumerable");
    ("toString", JBuiltin "toString");
    ("valueOf", JBuiltin "valueOf");
    ("toLocaleString", JBuiltin "toLocaleString");
    ("__proto__", JObjectPrototype) ].

(** [obj[key]] on a plain object with own properties [props]: the own
    property, else the one inherited from [Object.prototype], else
    [undefined]. *)
Definition getProperty (props : list (string * JSValue)) (key : string) : JSValue :=
  match assoc key props with
  | Some v => v
  | None =>
      match assoc key Object_prototype with
      | Some v => v
      | None => JUndefined
      end
  end.

(** Own property [key] of any value: a property of an object, an element or
    a code unit for the index ["0"].  The built-in prototypes define none of
    the names the dispatcher reads ([candidates], [content], [parts], [text]
    and the index 0), so for those names this is the whole property read. *)
Definition ownProperty (v : JSValue) (key : string) : JSValue :=
  match v with
  | JObject props =>
      match assoc key props with Some x => x | None => JUndefined end
  | JArray items =>
      if key =? "0" then match items with x :: _ => x | [] => JUndefined end
      else JUndefined
  | JString s =>
      if key =? "0"
      then match s with String c _ => JString (String c EmptyString) | EmptyString => JUndefined end
      else JUndefined
  | _ => JUndefined
  end.

(** Optional chaining [v?.key] and [v?.[0]] for those names. *)
Definition optChain (v : JSValue) (key : string) : JSValue :=
  match v with
  | JUndefined | JNull => JUndefined
  | _ => ownProperty v key
  end.

(** Joins rendered array elements with commas. *)
Fixpoint joinComma (parts : list string) : string :=
  match parts with
  | [] => EmptyString
  | [p] => p
  | p :: rest => p ++ "," ++ joinComma rest
  end.

(** [ToString], as a template literal applies it.  An array renders its
    elements joined by commas, [null] and [undefined] elements as nothing.
    A plain object renders as [[object Object]] unless it has an own
    [toString] property: that property, coming from JSON, is not callable,
    and the inherited [valueOf] returns the object itself, so the conversion
    throws a TypeError. *)
Fixpoint ToString (v : JSValue) : Completion string :=
  match v with
  | JUndefined => Return "undefined"
  | JNull => Return "null"
  | JBool true => Return "true"
  | JBool false => Return "false"
  | JNumber shown => Return shown
  | JString s => Return s
  | JArray items =>
      let fix each (l : list JSValue) : Completion (list string) :=
        match l with
        | [] => Return []
        | x :: rest =>
            bind (match x with
                  | JUndefined | JNull => Return EmptyString
                  | _ => ToString x
                  end)
                 (fun sx => bind (each rest) (fun srest => Return (sx :: srest)))
        end in
      bind (each items) (fun parts => Return (joinComma parts))
  | JObject props =>
      match assoc "toString" props with
      | Some _ => Throw TypeErrorToPrimitive
      | None => Return "[object Object]"
      end
  | JBuiltin name => Return ("function " ++ name ++ "() { [native code] }")
  | JObjectPrototype => Return "[object Object]"
  end.

(** Own enumerable properties, as the object spread [{...v}] copies them:
    those of an object, the indexed elements of an array, the code units of
    a string, nothing for other values. *)
Fixpoint indexed (i : nat) (items : list JSValue) : list (string * JSValue) :=
  match items with
  | [] => []
  | x :: rest => (decimal i, x) :: indexed (S i) rest
  end.

Fixpoint units (s : string) : list JSValue :=
  match s with
  | EmptyString => []
  | String c rest => JString (String c EmptyString) :: units rest
  end.

Definition ownEnumerable (v : JSValue) : list (string * JSValue) :=
  match v with
  | JObject props => props
  | JArray items => indexed 0 items
  | JString s => indexed 0 (units s)
  | _ => []
  end.

(** [{...a, ...b}] as a property list read by [assoc]: a binding of [b]
    hides the binding of [a] for the same name. *)
Definition spread (a : list (string * JSValue)) (b : JSValue) : list (string * JSValue) :=
  ownEnumerable b ++ a.

End JS.

(* ===================================================================== *)
(** ** The world outside the process *)
(* ===================================================================== *)

Module IO.
Import JS.

(** An HTTP response as node-fetch hands it over. *)
Record Response : Type := mkResponse {
  status : nat;
  statusText : string;
  body : string
}.

(** [res.ok]: node-fetch defines it as a status in 200..299. *)
Definition ok (res : Response) : bool :=
  ((200 <=? status res) && (status res <? 300))%nat.

(** What awaiting [fetch] yields: a response, or a rejection when the
    request could not be carried out. *)
Inductive Outcome : Type :=
| Responded (res : Response)
| Rejected.

(** The requests the programs issue, all with the one header
    [Content-Type: application/json].  [payload] is the object given to
    [JSON.stringify] for the request body. *)
Record Request : Type := mkRequest {
  endpoint : string;
  method : string;
  payload : JSValue
}.

(** What the command lines write to the terminal.  Colours, glyph prefixes
    and the Japanese theme of TermiGPT are presentation and left out; each
    constructor carries the text the source interpolates. *)
Inductive Output : Type :=
| FallbackNotice (model : string)
| Answer (answer : string)
| ContextCleared
| ErrorMessage (e : JSError)
| Bye
| Prompt.

(** [wire] holds the outcomes the network will give to the coming requests,
    in order; once it is used up every further request is rejected.
    [sent] is the requests issued so far, [terminal] what was written to the
    terminal, [logged] the texts given to [logLine] (each is written with a
    time stamp to the log file of the day). *)
Record World : Type := mkWorld {
  wire : list Outcome;
  sent : list Request;
  terminal : list Output;
  logged : list string
}.

Definition fetch (req : Request) (w : World) : Outcome * World :=
  match wire w with
  | [] => (Rejected, mkWorld [] (sent w ++ [req]) (terminal w) (logged w))
  | o :: rest => (o, mkWorld rest (sent w ++ [req]) (terminal w) (logged w))
  end.

Definition write (o : Output) (w : World) : World :=
  mkWorld (wire w) (sent w) (terminal w ++ [o]) (logged w).

(** [logLine] when the append succeeds; the append that throws is
    [Journal.logLine]. *)
Definition logLine (text : string) (w : World) : World :=
  mkWorld (wire w) (sent w) (terminal w) (logged w ++ [text]).

(** The endpoint address every dispatcher builds:
    [https://generativelanguage.googleapis.com/v1beta/models/${model}:generateContent?key=${apiKey}]. *)
Definition endpointFor (model apiKey : string) : string :=
  "https://generativelanguage.googleapis.com/v1beta/models/" ++ model
  ++ ":generateContent?key=" ++ apiKey.

(** The body every dispatcher posts:
    [{ contents: [{ role: "user", parts: [{ text: prompt }] }] }]. *)
Definition contentsOf (prompt : string) : JSValue :=
  JObject [("contents",
            JArray [JObject [("role", JString "user");
                             ("parts", JArray [JObject [("text", JString prompt)]])]])].

(** [data?.candidates?.[0]?.content?.parts?.[0]?.text] *)
Definition replyText (data : JSValue) : JSValue :=
  optChain (optChain (optChain (optChain (optChain (optChain data
    "candidates") "0") "content") "parts") "0") "text".

End IO.

(* ===================================================================== *)
(** ** Personas (src/ui.js lines 117-159, src/ui.jsx lines 21-71: the two
       command lines carry the same text) *)
(* ===================================================================== *)

Module Persona.
Import JS.

Definition DEFAULT_PERSONALITIES : list (string * JSValue) :=
  [ ("default", JString "You are a helpful, concise assistant. Prefer short, actionable answers with examples when relevant.");
    ("sarcastic", JString "You're a witty, sarcastic assistant. Roast gently but always provide correct, practical help.");
    ("motivational", JString "You're a high-energy coach. Be supportive, positive, and give step-by-step guidance.");
    ("hacker", JString "You're a cool, terse, command-line-loving hacker mentor. Prefer shell snippets and minimal prose.");
    ("teacher", JString "You're a patient teacher. Explain concepts like to a beginner, with analogies and checks for understanding.") ].

Definition promptRules : string :=
  LF ++ "Additional rules:" ++ LF ++ "- Use bullet points when helpful."
  ++ LF ++ "- Provide runnable examples when code is requested."
  ++ LF ++ "- Keep answers short unless --long is used.".

(** [personalities[style] || personalities["default"]], rendered by the
    template literal in front of the fixed rules. *)
Definition buildSystemPrompt (style : string) (personalities : list (string * JSValue))
  : Completion string :=
  let persona := or_else (getProperty personalities style)
                         (getProperty personalities "default") in
  bind (ToString persona) (fun shown => Return (shown ++ promptRules)).

Section Load.

(** [JSON.parse], [None] standing for the SyntaxError it throws. *)
Variable JSON_parse : string -> option JSValue.

(** [userFile] is the content of ~/.askit_personalities.json, [None] when the
    file does not exist or cannot be read; a read or parse failure is caught
    and leaves [extra] empty. *)
Definition loadPersonalities (userFile : option string) : list (string * JSValue) :=
  let extra :=
    match userFile with
    | Some content =>
        match JSON_parse content with
        | Some parsed => parsed
        | None => JObject []
        end
    | None => JObject []
    end in
  spread (spread [] (JObject DEFAULT_PERSONALITIES)) extra.

End Load.
End Persona.

(* ===================================================================== *)
(** ** AskIt command line (src/ui.js, lines 93-335) *)
(* ===================================================================== *)

Module Askit.
Import JS IO.

Definition DEFAULT_MODEL : string := "gemini-2.5-flash".
Definition STABLE_FALLBACK_MODEL : string := "gemini-2.5-flash".

(** [currentModel] after lines 200-208 of src/ui.js. *)
Definition currentModel (model : string) : string :=
  if negb (toLowerCase model =? STABLE_FALLBACK_MODEL) then
    if includes (toLowerCase model) "pro" && negb (includes (toLowerCase model) "2.5")
    then "gemini-2.5-pro"
    else model
  else model.

(** [endpoint] after lines 198-213: built from [model], rebuilt when the
    name was corrected. *)
Definition endpointOf (model apiKey : string) : string :=
  let endpoint := endpointFor model apiKey in
  if negb (currentModel model =? model)
  then endpointFor (currentModel model) apiKey
  else endpoint.

Definition noTextPlaceholder : string :=
  "(No text response from Gemini. The API may have returned a blocked or empty response.)".

(** [new] applied to the Error instance that [new Error(message)] built:
    an instance is not a constructor, so a TypeError is thrown and the
    instance, with its message, is dropped (line 241, [throw new new Error]). *)
Definition newOnInstance (instance : JSError) : JSError := TypeErrorNotAConstructor.

(** The recursion of [queryGemini] is on the model name: the retry is made
    with the stable fallback name, under a guard that excludes it. *)
Definition retryRank (model : string) : nat :=
  if model =? STABLE_FALLBACK_MODEL then 0 else 1.

Section Dispatcher.

(** [JSON.parse], [None] standing for the SyntaxError it throws. *)
Variable JSON_parse : string -> option JSValue.

(** [queryGemini] (lines 197-243).  The guard of the retry is tested with
    [bool_dec] so that the recursive call is made knowing the guard holds. *)
Equations? queryGemini (model prompt apiKey : string) (w : World)
  : Completion JSValue * World by wf (retryRank model) lt :=
queryGemini model prompt apiKey w :=
  match fetch (mkRequest (endpointOf model apiKey) "POST" (contentsOf prompt)) w with
  | (Rejected, w1) => (Throw FetchError, w1)
  | (Responded res, w1) =>
      let responseText := body res in
      if negb (ok res) then
        match bool_dec ((status res =? 404)%nat
                        && negb (currentModel model =? STABLE_FALLBACK_MODEL)) true with
        | left retry =>
            queryGemini STABLE_FALLBACK_MODEL prompt apiKey (write (FallbackNotice model) w1)
        | right _ =>
            (Throw (Error ("Gemini API error: " ++ decimal (status res) ++ " "
                           ++ statusText res ++ LF ++ responseText)), w1)
        end
      else
        match JSON_parse responseText with
        | Some data =>
            (Return (or_else (replyText data) (JString noTextPlaceholder)), w1)
        | None =>
            (Throw (newOnInstance
                      (Error ("Failed to parse Gemini response: "
                              ++ substring0 100 responseText ++ "..."))), w1)
        end
  end.
Proof.
  (* The guard [retry] excludes the fallback name, on which no correction
     applies; so [model] is not the fallback name and its rank is 1. *)
  unfold retryRank.
  destruct (model =? STABLE_FALLBACK_MODEL) eqn:same.
  - apply String.eqb_eq in same. subst model.
    change (currentModel STABLE_FALLBACK_MODEL =? STABLE_FALLBACK_MODEL) with true in retry.
    rewrite andb_false_r in retry. discriminate retry.
  - change (STABLE_FALLBACK_MODEL =? STABLE_FALLBACK_MODEL) with true. cbv iota. lia.
Qed.

End Dispatcher.
End Askit.


(* ===================================================================== *)
(** ** TermiGPT command line (src/ui.jsx) *)
(* ===================================================================== *)

Module Termigpt.
Import JS IO.

Definition DEFAULT_MODEL : string := "gemini-2.0-flash".

Definition noResponsePlaceholder : string := "(no response)".

Section Dispatcher.

Variable JSON_parse : string -> option JSValue.

(** Lines 100-114: one attempt, no correction of the name, no retry;
    [JSON.parse] is not guarded, so its SyntaxError is what is thrown. *)
Definition queryGemini (model prompt apiKey : string) (w : World)
  : Completion JSValue * World :=
  match fetch (mkRequest (endpointFor model apiKey) "POST" (contentsOf prompt)) w with
  | (Rejected, w1) => (Throw FetchError, w1)
  | (Responded res, w1) =>
      let text := body res in
      if negb (ok res) then
        (Throw (Error ("Gemini API error: " ++ decimal (status res) ++ " "
                       ++ statusText res ++ LF ++ text)), w1)
      else
        match JSON_parse text with
        | Some data =>
            (Return (or_else (replyText data) (JString noResponsePlaceholder)), w1)
        | None => (Throw SyntaxErrorJSON, w1)
        end
  end.

End Dispatcher.
End Termigpt.

(* ===================================================================== *)
(** ** The interactive loop (src/ui.js lines 267-308, src/ui.jsx lines
       144-195).  The two [chatMode] functions differ in the dispatcher they
       call and in decoration only, so the loop is written once over the
       dispatcher. *)
(* ===================================================================== *)

Module Chat.
Import JS IO Persona.

(** The variables the [line] handler closes over: the options and the key
    (never assigned), [context] (declared with [let]) and whether the
    readline interface was closed, after which the process has exited. *)
Record Session : Type := mkSession {
  style : string;
  long : bool;
  model : string;
  apiKey : string;
  personalities : list (string * JSValue);
  context : string;
  closed : bool
}.

Definition withContext (s : Session) (c : string) : Session :=
  mkSession (style s) (long s) (model s) (apiKey s) (personalities s) c (closed s).

Definition close (s : Session) : Session :=
  mkSession (style s) (long s) (model s) (apiKey s) (personalities s) (context s) true.

Section Loop.

Variable JSON_parse : string -> option JSValue.

(** [queryGemini] of the command line at hand. *)
Variable queryGemini : string -> string -> string -> World -> Completion JSValue * World.

(** [chatMode] up to the first [rl.prompt()].  The API key is the one
    [getAPIKey] resolved.  The banner lines are decoration and not recorded. *)
Definition chatMode (style : string) (long : bool) (model apiKey : string)
  (userFile : option string) (w : World) : Completion Session * World :=
  let personalities := loadPersonalities JSON_parse userFile in
  match buildSystemPrompt style personalities with
  | Return context =>
      (Return (mkSession style long model apiKey personalities context false),
       write Prompt w)
  | Throw e => (Throw e, w)
  end.

(** [fullPrompt] of the [line] handler. *)
Definition fullPrompt (s : Session) (text : string) : string :=
  context s ++ LF ++ "User: " ++ text
  ++ (if long s then LF ++ "Be detailed and thorough." else "").

(** The [line] handler, run to completion for one line. *)
Definition onLine (s : Session) (line : string) (w : World) : Session * World :=
  if closed s then (s, w)
  else
    let text := trim line in
    if text =? "" then (s, write Prompt w)
    else if text =? ":exit" then (close s, write Bye w)
    else if text =? ":clear" then
      match buildSystemPrompt (style s) (personalities s) with
      | Return fresh => (withContext s fresh, write Prompt (write ContextCleared w))
      | Throw _ => (s, w) (* the handler stops before the assignment *)
      end
    else
      let (result, w1) := queryGemini (model s) (fullPrompt s text) (apiKey s) w in
      let w2 :=
        match bind result ToString with
        | Return answer =>
            logLine ("A: " ++ answer) (logLine ("Q: " ++ text) (write (Answer answer) w1))
        | Throw err => write (ErrorMessage err) w1
        end in
      (s, write Prompt w2).

(** The lines typed during a session, one after the other. *)
Fixpoint onLines (s : Session) (lines : list string) (w : World) : Session * World :=
  match lines with
  | [] => (s, w)
  | line :: rest => let (s1, w1) := onLine s line w in onLines s1 rest w1
  end.

End Loop.
End Chat.

(* ===================================================================== *)
(** ** The full-screen front end (src/ui.js lines 1-92) *)
(* ===================================================================== *)

Module InkUI.
Import JS IO.

Definition MODEL : string := "gemini-2.0-flash".

(** An element of the [messages] state. *)
Record Message : Type := mkMessage {
  role : string;
  text : JSValue
}.

(** The log directory as the sequence of [writeFileSync] calls made in it,
    oldest first: file name and data.  A file holds what the last call for
    its name wrote. *)
Definition Disk : Type := list (string * string).

Fixpoint fileContent (name : string) (disk : Disk) : option string :=
  match disk with
  | [] => None
  | (n, data) :: later =>
      match fileContent name later with
      | Some newer => Some newer
      | None => if n =? name then Some data else None
      end
  end.

(** [parts.join(sep)]. *)
Fixpoint join (sep : string) (parts : list string) : string :=
  match parts with
  | [] => EmptyString
  | [p] => p
  | p :: rest => p ++ sep ++ join sep rest
  end.

(** [messages.map(m => `${m.role}: ${m.text}`)]. *)
Fixpoint renderAll (messages : list Message) : Completion (list string) :=
  match messages with
  | [] => Return []
  | m :: rest =>
      bind (ToString (text m)) (fun shown =>
      bind (renderAll rest) (fun others =>
      Return ((role m ++ ": " ++ shown) :: others)))
  end.

(** The [data] of [saveLog]. *)
Definition transcript (messages : list Message) : Completion string :=
  bind (renderAll messages) (fun lines => Return (join (LF ++ LF) lines)).

(** The name of the file of [saveLog] inside the log directory, [now] being
    [Date.now()], a count of milliseconds. *)
Definition logFileName (now : N) : string :=
  "ui_chat_" ++ NilZero.string_of_uint (N.to_uint now) ++ ".txt".

(** [saveLog] (lines 47-52) as a function of the [messages] its closure
    holds and of [Date.now()]. *)
Definition saveLog (messages : list Message) (now : N) (disk : Disk)
  : Completion Disk :=
  let file := logFileName now in
  bind (transcript messages) (fun data => Return (disk ++ [(file, data)])%list).

(** A [handleExit] closure.  It is created by one render of [ChatUI]; the
    only variable of that render it reads, through [saveLog], is
    [messages]. *)
Record Handler : Type := mkHandler {
  seenMessages : list Message
}.

(** The component state, and the listeners registered on [process]. *)
Record UI : Type := mkUI {
  messages : list Message;
  input : string;
  loading : bool;
  mounted : bool;
  onSIGINT : option Handler;
  onExit : option Handler
}.

(** The closures one render creates, from the state that render sees. *)
Definition renderedHandleExit (ui : UI) : Handler := mkHandler (messages ui).

(** First render and its effect.  [useState([])], [useState("")],
    [useState(false)] give the state; [useEffect(..., [])] has an empty
    dependency list, so its body runs after this render only and registers
    the [handleExit] created by this render on both events. *)
Definition mount : UI :=
  let first := mkUI [] "" false true None None in
  mkUI (messages first) (input first) (loading first) true
       (Some (renderedHandleExit first)) (Some (renderedHandleExit first)).

(** The state setters: [setInput] (also [onChange] of the text input),
    [setMessages] with its updater function, [setLoading]. *)
Definition setInput (value : string) (ui : UI) : UI :=
  mkUI (messages ui) value (loading ui) (mounted ui) (onSIGINT ui) (onExit ui).

Definition setMessages (update : list Message -> list Message) (ui : UI) : UI :=
  mkUI (update (messages ui)) (input ui) (loading ui) (mounted ui) (onSIGINT ui) (onExit ui).

Definition setLoading (busy : bool) (ui : UI) : UI :=
  mkUI (messages ui) (input ui) busy (mounted ui) (onSIGINT ui) (onExit ui).

Section Component.

(** [res.json()], [None] standing for the error it rejects with. *)
Variable JSON_parse : string -> option JSValue.
Variable API_KEY : string.

(** Lines 15-26: no status test, body parsed by [res.json()], whose
    rejection is the one of [JSON.parse]. *)
Definition queryGemini (prompt : string) (w : World) : Completion JSValue * World :=
  match fetch (mkRequest (endpointFor MODEL API_KEY) "POST" (contentsOf prompt)) w with
  | (Rejected, w1) => (Throw FetchError, w1)
  | (Responded res, w1) =>
      match JSON_parse (body res) with
      | Some data => (Return (or_else (replyText data) (JString "(no response)")), w1)
      | None => (Throw SyntaxErrorJSON, w1)
      end
  end.

(** [handleSubmit] (lines 35-45), run to completion.  The state updates
    re-render the component; the effect is not run again.  When the
    dispatch fails the handler stops there, the front end still loading. *)
Definition handleSubmit (ui : UI) (w : World) : UI * World :=
  if trim (input ui) =? "" then (ui, w)
  else
    let userMsg := mkMessage "user" (JString (input ui)) in
    let asked :=
      setLoading true (setInput "" (setMessages (fun m => m ++ [userMsg])%list ui)) in
    match queryGemini (input ui) w with
    | (Return reply, w1) =>
        (setLoading false
           (setMessages (fun m => m ++ [mkMessage "assistant" reply])%list asked), w1)
    | (Throw _, w1) => (asked, w1)
    end.

End Component.

(** Ink's [exit()]: the component is unmounted and the cleanup of the effect
    runs, [process.off("exit", handleExit)]. *)
Definition exit (ui : UI) : UI :=
  mkUI (messages ui) (input ui) (loading ui) false (onSIGINT ui) None.

(** [handleExit] (lines 55-58) of the closure [h]. *)
Definition handleExit (h : Handler) (now : N) (ui : UI) (disk : Disk)
  : Completion (UI * Disk) :=
  bind (saveLog (seenMessages h) now disk) (fun saved => Return (exit ui, saved)).

Definition emit (listener : option Handler) (now : N) (ui : UI) (disk : Disk)
  : Completion (UI * Disk) :=
  match listener with
  | Some h => handleExit h now ui disk
  | None => Return (ui, disk)
  end.

(** The process ends normally: the [exit] event is emitted. *)
Definition normalExit (now : N) (ui : UI) (disk : Disk) : Completion (UI * Disk) :=
  emit (onExit ui) now ui disk.

(** The process receives SIGINT: its listener runs, then, nothing being
    left to wait for, the process ends and emits [exit] at time [later]. *)
Definition interrupt (now later : N) (ui : UI) (disk : Disk) : Completion (UI * Disk) :=
  bind (emit (onSIGINT ui) now ui disk) (fun '(ui1, disk1) =>
  normalExit later ui1 disk1).

End InkUI.

(* ===================================================================== *)
(** ** An executable reader of JSON texts

    The dispatchers are stated over any [JSON_parse].  To run them on
    concrete response bodies this module reads the JSON grammar of ECMA-404,
    within the limits of the string and Number models: a numeral must be a
    plain integer of at most fifteen digits (such a Number is rendered by
    its own digits) and a [\u] escape must denote a code unit below 256.
    On a text outside these limits the reader answers [None], as it does on
    a malformed text. *)
(* ===================================================================== *)

Module JSONText.
Import JS.
Local Open Scope char_scope.

Definition isWhite (c : ascii) : bool :=
  let n := nat_of_ascii c in ((n =? 32) || (n =? 9) || (n =? 10) || (n =? 13))%nat.

Fixpoint skipWhite (s : string) : string :=
  match s with
  | String c rest => if isWhite c then skipWhite rest else s
  | EmptyString => EmptyString
  end.

Definition isDigit (c : ascii) : bool :=
  let n := nat_of_ascii c in ((48 <=? n) && (n <=? 57))%nat.

Fixpoint takeDigits (s : string) : string * string :=
  match s with
  | String c rest =>
      if isDigit c then let (ds, tail) := takeDigits rest in (String c ds, tail)
      else (EmptyString, s)
  | EmptyString => (EmptyString, EmptyString)
  end.

Definition hexDigit (c : ascii) : option nat :=
  let n := nat_of_ascii c in
  if ((48 <=? n) && (n <=? 57))%nat then Some (n - 48)
  else if ((65 <=? n) && (n <=? 70))%nat then Some (n - 55)
  else if ((97 <=? n) && (n <=? 102))%nat then Some (n - 87)
  else None.

Definition hex4 (a b c d : ascii) : option nat :=
  match hexDigit a, hexDigit b, hexDigit c, hexDigit d with
  | Some x, Some y, Some z, Some t => Some (((x * 16 + y) * 16 + z) * 16 + t)
  | _, _, _, _ => None
  end.

(** A one-letter escape. *)
Definition simpleEscape (e : ascii) : option ascii :=
  let n := nat_of_ascii e in
  if (n =? 34)%nat then Some e
  else if (n =? 92)%nat then Some e
  else if (n =? 47)%nat then Some e
  else if (n =? 98)%nat then Some (ascii_of_nat 8)
  else if (n =? 102)%nat then Some (ascii_of_nat 12)
  else if (n =? 110)%nat then Some (ascii_of_nat 10)
  else if (n =? 114)%nat then Some (ascii_of_nat 13)
  else if (n =? 116)%nat then Some (ascii_of_nat 9)
  else None.

Definition consChar (c : ascii) (r : option (string * string)) : option (string * string) :=
  match r with
  | Some (str, tail) => Some (String c str, tail)
  | None => None
  end.

(** The characters of a string literal after its opening quote, up to the
    closing quote; the text after it. *)
Fixpoint readChars (s : string) : option (string * string) :=
  match s with
  | EmptyString => None
  | String c rest =>
      if (nat_of_ascii c =? 34)%nat then Some (EmptyString, rest)
      else if (nat_of_ascii c =? 92)%nat then
        match rest with
        | String e rest1 =>
            match simpleEscape e with
            | Some u => consChar u (readChars rest1)
            | None =>
                if (nat_of_ascii e =? 117)%nat then
                  match rest1 with
                  | String h1 (String h2 (String h3 (String h4 rest2))) =>
                      match hex4 h1 h2 h3 h4 with
                      | Some n =>
                          if (n <? 256)%nat then consChar (ascii_of_nat n) (readChars rest2)
                          else None
                      | None => None
                      end
                  | _ => None
                  end
                else None
            end
        | EmptyString => None
        end
      else if (nat_of_ascii c <? 32)%nat then None
      else consChar c (readChars rest)
  end.

(** A numeral: an optional minus sign and an integer part without a
    superfluous leading zero.  A fraction or an exponent is outside the
    reader's limits.  [-0] is the Number that renders as [0]. *)
Definition readNumber (s : string) : option (JSValue * string) :=
  let (negative, unsigned) :=
    match s with
    | String c rest => if (nat_of_ascii c =? 45)%nat then (true, rest) else (false, s)
    | EmptyString => (false, s)
    end in
  let (digits, tail) :=
    match unsigned with
    | String c rest =>
        if (nat_of_ascii c =? 48)%nat then (String c EmptyString, rest)
        else takeDigits unsigned
    | EmptyString => (EmptyString, EmptyString)
    end in
  let limited :=
    match tail with
    | String c _ =>
        let n := nat_of_ascii c in negb ((n =? 46) || (n =? 101) || (n =? 69))%nat
    | EmptyString => true
    end in
  if (digits =? "")%string || negb limited || (15 <? String.length digits)%nat then None
  else if negative && negb (digits =? "0")%string
       then Some (JNumber (String "-" digits), tail)
       else Some (JNumber digits, tail).

(** [key: v] added to the members read so far: a repeated name keeps its
    place and takes the later value. *)
Fixpoint define (key : string) (v : JSValue) (props : list (string * JSValue))
  : list (string * JSValue) :=
  match props with
  | [] => [(key, v)]
  | (k, old) :: rest =>
      if (k =? key)%string then (k, v) :: rest else (k, old) :: define key v rest
  end.

Definition dropPrefix (p s : string) : option string :=
  if String.prefix p s
  then Some (String.substring (String.length p) (String.length s - String.length p) s)
  else None.

(** A value, the elements of an array after its first bracket, the members
    of an object after its first brace.  [fuel] bounds the number of nested
    calls; [parse] gives enough of it for the length of the text. *)
Fixpoint readValue (fuel : nat) (s : string) : option (JSValue * string) :=
  match fuel with
  | 0 => None
  | S fuel' =>
      match skipWhite s with
      | EmptyString => None
      | String c rest =>
          let n := nat_of_ascii c in
          if (n =? 123)%nat then
            match skipWhite rest with
            | String "}" after => Some (JObject [], after)
            | _ => readMembers fuel' rest []
            end
          else if (n =? 91)%nat then
            match skipWhite rest with
            | String "]" after => Some (JArray [], after)
            | _ => readElements fuel' rest []
            end
          else if (n =? 34)%nat then
            match readChars rest with
            | Some (str, after) => Some (JString str, after)
            | None => None
            end
          else
            match dropPrefix "true" (String c rest),
                  dropPrefix "false" (String c rest),
                  dropPrefix "null" (String c rest) with
            | Some after, _, _ => Some (JBool true, after)
            | _, Some after, _ => Some (JBool false, after)
            | _, _, Some after => Some (JNull, after)
            | None, None, None => readNumber (String c rest)
            end
      end
  end
with readElements (fuel : nat) (s : string) (acc : list JSValue)
  : option (JSValue * string) :=
  match fuel with
  | 0 => None
  | S fuel' =>
      match readValue fuel' s with
      | Some (v, rest) =>
          match skipWhite rest with
          | String "," after => readElements fuel' after (acc ++ [v])
          | String "]" after => Some (JArray (acc ++ [v]), after)
          | _ => None
          end
      | None => None
      end
  end
with readMembers (fuel : nat) (s : string) (acc : list (string * JSValue))
  : option (JSValue * string) :=
  match fuel with
  | 0 => None
  | S fuel' =>
      match skipWhite s with
      | String c rest =>
          if (nat_of_ascii c =? 34)%nat then
            match readChars rest with
            | Some (key, rest1) =>
                match skipWhite rest1 with
                | String ":" rest2 =>
                    match readValue fuel' rest2 with
                    | Some (v, rest3) =>
                        match skipWhite rest3 with
                        | String "," after => readMembers fuel' after (define key v acc)
                        | String "}" after => Some (JObject (define key v acc), after)
                        | _ => None
                        end
                    | None => None
                    end
                | _ => None
                end
            | None => None
            end
          else None
      | EmptyString => None
      end
  end.

(** The whole text must be one value between optional white space. *)
Definition parse (text : string) : option JSValue :=
  match readValue (2 * String.length text + 2) text with
  | Some (v, rest) => if (skipWhite rest =? "")%string then Some v else None
  | None => None
  end.

End JSONText.


(* ===================================================================== *)
(** ** Resolving the API key (src/ui.js lines 161-193, src/ui.jsx lines
       73-97) *)
(* ===================================================================== *)

Module Credentials.
Import JS.

(** What [getAPIKey] finds on the machine: the value of the environment
    variable GEMINI_API_KEY ([None] when unset), the content of
    ~/.askit_config ([None] when the file does not exist or cannot be read),
    whether the file can be written, and the line the user types when
    asked. *)
Record Host : Type := mkHost {
  envKey : option string;
  configFile : option string;
  configWritable : bool;
  typed : string
}.

(** How [getAPIKey] ends: with a key, with the Error [No API key provided],
    or with the error of [writeFileSync]. *)
Inductive KeyOutcome : Type :=
| KeyResolved (key : string)
| NoKeyProvided
| ConfigWriteFailed.

(** The outcome, the content of ~/.askit_config afterwards, whether the user
    was asked, and whether the saving was announced. *)
Record KeyRun : Type := mkKeyRun {
  outcome : KeyOutcome;
  configAfter : option string;
  asked : bool;
  announcedSaved : bool
}.

(** [promptHidden]: the line read, trimmed. *)
Definition promptHidden (line : string) : string := trim line.

(** First source: the environment variable, when it is set and is not white
    space only; its value trimmed. *)
Definition keyOfEnvironment (host : Host) : option string :=
  match envKey host with
  | Some value =>
      if negb (value =? "") && negb (trim value =? "") then Some (trim value) else None
  | None => None
  end.

(** Second source: the saved file, when it exists, can be read and is not
    white space only; its content trimmed. *)
Definition keyOfConfig (host : Host) : option string :=
  match configFile host with
  | Some content => if negb (trim content =? "") then Some (trim content) else None
  | None => None
  end.

(** Third source: the user is asked; an empty entry throws.  [guarded] tells
    whether the write of the entered key is inside [try]. *)
Definition keyOfUser (guarded : bool) (host : Host) : KeyRun :=
  let entered := promptHidden (typed host) in
  if entered =? "" then mkKeyRun NoKeyProvided (configFile host) true false
  else if configWritable host then mkKeyRun (KeyResolved entered) (Some entered) true true
  else if guarded then mkKeyRun (KeyResolved entered) (configFile host) true false
  else mkKeyRun ConfigWriteFailed (configFile host) true false.

(** [getAPIKey]: of AskIt when [guarded] is true, of TermiGPT when it is
    false.  The sources are tried in this order and the first that gives a
    key ends the function. *)
Definition getAPIKey (guarded : bool) (host : Host) : KeyRun :=
  match keyOfEnvironment host with
  | Some key => mkKeyRun (KeyResolved key) (configFile host) false false
  | None =>
      match keyOfConfig host with
      | Some saved => mkKeyRun (KeyResolved saved) (configFile host) false false
      | None => keyOfUser guarded host
      end
  end.

End Credentials.

(* ===================================================================== *)
(** ** Single question (src/ui.js lines 247-265, src/ui.jsx lines 117-142) *)
(* ===================================================================== *)

Module Single.
Import JS IO Persona.

Section Shot.

Variable JSON_parse : string -> option JSValue.

(** [queryGemini] of the command line at hand. *)
Variable queryGemini : string -> string -> string -> World -> Completion JSValue * World.

(** [prompt] of [singleShot]. *)
Definition promptOf (systemPrompt question : string) (long : bool) : string :=
  systemPrompt ++ LF ++ LF ++ "User: " ++ question
  ++ (if long then LF ++ "Be detailed and thorough." else "").

(** [singleShot] once the API key is resolved.  The banner, style and
    question lines are decoration and not recorded.  Nothing is caught
    here: what is thrown reaches the caller. *)
Definition singleShot (question style : string) (long : bool) (model apiKey : string)
  (userFile : option string) (w : World) : Completion unit * World :=
  let personalities := loadPersonalities JSON_parse userFile in
  match buildSystemPrompt style personalities with
  | Throw e => (Throw e, w)
  | Return systemPrompt =>
      let prompt := promptOf systemPrompt question long in
      let (result, w1) := queryGemini model prompt apiKey w in
      match bind result ToString with
      | Return answer =>
          (Return tt,
           logLine ("A: " ++ answer) (logLine ("Q: " ++ question) (write (Answer answer) w1)))
      | Throw e => (Throw e, w1)
      end
  end.

End Shot.
End Single.

(* ===================================================================== *)
(** ** The command line actions (src/ui.js lines 312-335, src/ui.jsx lines
       198-233) *)
(* ===================================================================== *)

Module Cli.
Import JS IO Credentials.

(** The options commander hands to the action: [--style] (default
    ["default"]), [--model], [--chat], [--long], and for TermiGPT [--ui] and
    [--tojapan]. *)
Record Options : Type := mkOptions {
  style : string;
  model : string;
  chat : bool;
  long : bool;
  ui : bool;
  tojapan : bool
}.

(** Why the action ended with [process.exit(1)]. *)
Inductive Failure : Type :=
| NoKey (o : KeyOutcome)
| Thrown (e : JSError).

(** How the action ends: the interactive loop is waiting for lines, the
    single question was answered, the full-screen front end was spawned
    (with or without [--tojapan]), or the process exited with status 1 after
    printing the error. *)
Inductive Ended : Type :=
| Chatting (s : Chat.Session)
| Completed
| LaunchedUI (japan : bool)
| ExitedWithFailure (cause : Failure).

(** The end, the content of ~/.askit_config afterwards, the world. *)
Record Run : Type := mkRun {
  ended : Ended;
  config : option string;
  world : World
}.

Section Actions.

Variable JSON_parse : string -> option JSValue.

(** The body of both actions: the interactive loop when [--chat] is given
    or no question is, else the single question, its parts joined by spaces.
    Each mode starts with [getAPIKey], whose run is [key]. *)
Definition dispatchMode
  (queryGemini : string -> string -> string -> World -> Completion JSValue * World)
  (questionParts : list string) (opts : Options) (key : KeyRun)
  (userFile : option string) (w : World) : Run :=
  if chat opts || (List.length questionParts =? 0)%nat then
    match outcome key with
    | KeyResolved apiKey =>
        match Chat.chatMode JSON_parse (style opts) (long opts) (model opts) apiKey
                            userFile w with
        | (Return s, w1) => mkRun (Chatting s) (configAfter key) w1
        | (Throw e, w1) => mkRun (ExitedWithFailure (Thrown e)) (configAfter key) w1
        end
    | o => mkRun (ExitedWithFailure (NoKey o)) (configAfter key) w
    end
  else
    let question := InkUI.join " " questionParts in
    match outcome key with
    | KeyResolved apiKey =>
        match Single.singleShot JSON_parse queryGemini question (style opts) (long opts)
                                (model opts) apiKey userFile w with
        | (Return _, w1) => mkRun Completed (configAfter key) w1
        | (Throw e, w1) => mkRun (ExitedWithFailure (Thrown e)) (configAfter key) w1
        end
    | o => mkRun (ExitedWithFailure (NoKey o)) (configAfter key) w
    end.

(** The action of AskIt (src/ui.js lines 321-333). *)
Definition askit (questionParts : list string) (opts : Options) (host : Host)
  (userFile : option string) (w : World) : Run :=
  dispatchMode (Askit.queryGemini JSON_parse) questionParts opts
               (getAPIKey true host) userFile w.

(** The action of TermiGPT (src/ui.jsx lines 209-231): [--ui] comes first
    and spawns the front end without resolving a key. *)
Definition termigpt (questionParts : list string) (opts : Options) (host : Host)
  (userFile : option string) (w : World) : Run :=
  if ui opts then mkRun (LaunchedUI (tojapan opts)) (configFile host) w
  else dispatchMode (Termigpt.queryGemini JSON_parse) questionParts opts
                    (getAPIKey false host) userFile w.

End Actions.
End Cli.

(* ===================================================================== *)
(** ** Logging that can fail (src/ui.js lines 135-144, src/ui.jsx lines
       47-56)

    [ensureLogDir] swallows the error of [mkdirSync]; [logLine] then calls
    [appendFileSync] unguarded, which throws when the log directory is
    missing or cannot be written.  [IO.logLine] is the append that succeeds.
    Here the modes are written with the append that may throw: [failure] is
    [None] when the log can be written, and [Some message] when
    [appendFileSync] throws an Error with that message. *)
(* ===================================================================== *)

Module Journal.
Import JS IO Persona.

(** [logLine]. *)
Definition logLine (failure : option string) (text : string) (w : World)
  : Completion World :=
  match failure with
  | None => Return (IO.logLine text w)
  | Some message => Throw (Error message)
  end.

Section Modes.

Variable failure : option string.
Variable JSON_parse : string -> option JSValue.

(** [queryGemini] of the command line at hand. *)
Variable queryGemini : string -> string -> string -> World -> Completion JSValue * World.

(** [singleShot] (src/ui.js lines 247-265, src/ui.jsx lines 117-142): the
    answer is printed, then the two log lines are written; an error of the
    first or of the second append ends the function like any other. *)
Definition singleShot (question style : string) (long : bool) (model apiKey : string)
  (userFile : option string) (w : World) : Completion unit * World :=
  let personalities := loadPersonalities JSON_parse userFile in
  match buildSystemPrompt style personalities with
  | Throw e => (Throw e, w)
  | Return systemPrompt =>
      let prompt := Single.promptOf systemPrompt question long in
      let (result, w1) := queryGemini model prompt apiKey w in
      match bind result ToString with
      | Throw e => (Throw e, w1)
      | Return answer =>
          let printed := write (Answer answer) w1 in
          match logLine failure ("Q: " ++ question) printed with
          | Throw e => (Throw e, printed)
          | Return w2 =>
              match logLine failure ("A: " ++ answer) w2 with
              | Throw e => (Throw e, w2)
              | Return w3 => (Return tt, w3)
              end
          end
      end
  end.

(** The [line] handler (src/ui.js lines 284-304, src/ui.jsx lines 166-191):
    the dispatch, the printing of the answer and the two appends are inside
    [try]; what any of them throws is written to the terminal by [catch]. *)
Definition onLine (s : Chat.Session) (line : string) (w : World) : Chat.Session * World :=
  if Chat.closed s then (s, w)
  else
    let text := trim line in
    if text =? "" then (s, write Prompt w)
    else if text =? ":exit" then (Chat.close s, write Bye w)
    else if text =? ":clear" then
      match buildSystemPrompt (Chat.style s) (Chat.personalities s) with
      | Return fresh => (Chat.withContext s fresh, write Prompt (write ContextCleared w))
      | Throw _ => (s, w)
      end
    else
      let (result, w1) :=
        queryGemini (Chat.model s) (Chat.fullPrompt s text) (Chat.apiKey s) w in
      let w2 :=
        match bind result ToString with
        | Return answer =>
            let printed := write (Answer answer) w1 in
            match logLine failure ("Q: " ++ text) printed with
            | Throw err => write (ErrorMessage err) printed
            | Return w' =>
                match logLine failure ("A: " ++ answer) w' with
                | Throw err => write (ErrorMessage err) w'
                | Return w'' => w''
                end
            end
        | Throw err => write (ErrorMessage err) w1
        end in
      (s, write Prompt w2).

End Modes.
End Journal.

(* ===================================================================== *)
(** ** Sample inputs on which the model is run *)
(* ===================================================================== *)

Module Samples.
Import JS IO.

(** The success body of the remote API for a reply [text]:
    [{"candidates":[{"content":{"parts":[{"text":"<text>"}]}}]}]. *)
Definition replyBody (text : string) : string :=
  "{" ++ DQ ++ "candidates" ++ DQ ++ ":[{" ++ DQ ++ "content" ++ DQ ++ ":{"
  ++ DQ ++ "parts" ++ DQ ++ ":[{" ++ DQ ++ "text" ++ DQ ++ ":" ++ DQ ++ text ++ DQ
  ++ "}]}}]}".

(** What [JSON.parse] makes of it. *)
Definition replyData (text : string) : JSValue :=
  JObject [("candidates",
            JArray [JObject [("content",
              JObject [("parts", JArray [JObject [("text", JString text)]])])]])].

Definition okReply (text : string) : Response := mkResponse 200 "OK" (replyBody text).
Definition notFound : Response := mkResponse 404 "Not Found" "{}".
Definition serverError : Response := mkResponse 500 "Internal Server Error" "oops".
Definition emptyReply : Response := mkResponse 200 "OK" "{}".
Definition htmlPage : Response := mkResponse 200 "OK" "<html>Service page</html>".

(** A world in which nothing happened yet and the network will answer with
    [responses]. *)
Definition online (responses : list Response) : World :=
  mkWorld (map Responded responses) [] [] [].

(** The context of a session of style [default] without a user file. *)
Definition defaultContext : string :=
  "You are a helpful, concise assistant. Prefer short, actionable answers with examples when relevant."
  ++ Persona.promptRules.

Definition session : Chat.Session :=
  Chat.mkSession "default" false "gemini-2.5-flash" "KEY"
    (Persona.loadPersonalities JSONText.parse None) defaultContext false.

End Samples.

(* ===================================================================== *)
(** ** Observations used to state the properties *)
(* ===================================================================== *)

Module Observe.
Import JS IO.

(** The requests issued between the world [before] and the world [after]. *)
Definition issued (before after : World) : list Request :=
  skipn (List.length (sent before)) (sent after).

(** The request an AskIt or TermiGPT dispatcher posts for a model name. *)
Definition requestFor (model prompt apiKey : string) : Request :=
  mkRequest ("https://generativelanguage.googleapis.com/v1beta/models/" ++ model
             ++ ":generateContent?key=" ++ apiKey)
            "POST" (contentsOf prompt).

(** The RemoteError of the specification: the Error both command lines
    build from a response without success status. *)
Definition RemoteError (res : Response) : JSError :=
  Error ("Gemini API error: " ++ decimal (status res) ++ " " ++ statusText res
         ++ LF ++ body res).

(** The ParseError the catch block of AskIt spells out (line 241). *)
Definition ParseError (res : Response) : JSError :=
  Error ("Failed to parse Gemini response: " ++ substring0 100 (body res) ++ "...").

(** A value that [?.] treats as a missing link. *)
Definition missing (v : JSValue) : Prop := v = JUndefined \/ v = JNull.

(** The links of the extraction path. *)
Definition firstCandidate (data : JSValue) : JSValue :=
  optChain (optChain data "candidates") "0".
Definition contentOf (candidate : JSValue) : JSValue := optChain candidate "content".
Definition firstPart (content : JSValue) : JSValue :=
  optChain (optChain content "parts") "0".
Definition textOf (part : JSValue) : JSValue := optChain part "text".

(** How an attempt of the AskIt dispatcher that is not retried completes:
    the RemoteError without success status, else the extracted reply, or the
    TypeError when the body does not parse. *)
Definition conclude (JSON_parse : string -> option JSValue) (res : Response)
  : Completion JSValue :=
  if negb (ok res) then Throw (RemoteError res)
  else match JSON_parse (body res) with
       | Some data => Return (or_else (replyText data) (JString Askit.noTextPlaceholder))
       | None => Throw (Askit.newOnInstance (ParseError res))
       end.

(** An input line of the interactive loop that is neither empty nor a
    command: the handler dispatches it. *)
Definition dispatchable (line : string) : Prop :=
  trim line <> "" /\ trim line <> ":exit" /\ trim line <> ":clear".

(** The prompt of a first turn on the context [context]. *)
Definition turnPrompt (context text : string) (long : bool) : string :=
  context ++ LF ++ "User: " ++ text
  ++ (if long then LF ++ "Be detailed and thorough." else "").

(** A session whose context is the prompt constructed for its style. *)
Definition settled (s : Chat.Session) : Prop :=
  Persona.buildSystemPrompt (Chat.style s) (Chat.personalities s)
  = Return (Chat.context s).

(** What the user does in the full-screen front end. *)
Inductive Gesture : Type :=
| Typed (value : string)
| Submitted.

(** Both listeners are the [handleExit] of the first render, which saw the
    empty message list. *)
Definition firstRenderListeners (ui : InkUI.UI) : Prop :=
  InkUI.onSIGINT ui = Some (InkUI.mkHandler [])
  /\ InkUI.onExit ui = Some (InkUI.mkHandler []).

(** The front end after a sequence of gestures. *)
Fixpoint drive (JSON_parse : string -> option JSValue) (API_KEY : string)
  (gestures : list Gesture) (ui : InkUI.UI) (w : World) : InkUI.UI * World :=
  match gestures with
  | [] => (ui, w)
  | Typed value :: rest => drive JSON_parse API_KEY rest (InkUI.setInput value ui) w
  | Submitted :: rest =>
      let (ui1, w1) := InkUI.handleSubmit JSON_parse API_KEY ui w in
      drive JSON_parse API_KEY rest ui1 w1
  end.

End Observe.

(* ===================================================================== *)
(** ** Further observations *)
(* ===================================================================== *)

Module Notions.
Import JS IO.

(** A source of the key that gives nothing: unset or absent, empty, or white
    space only. *)
Definition blank (source : option string) : Prop :=
  match source with
  | None => True
  | Some value => trim value = ""
  end.

(** [p] is the beginning of [l]. *)
Definition startsWith {A : Type} (p l : list A) : Prop := exists more, l = (p ++ more)%list.

(** A dispatcher, as the modes call it. *)
Definition Dispatcher : Type :=
  string -> string -> string -> World -> Completion JSValue * World.

(** A dispatcher that never logs and never prints an answer. *)
Definition quiet (queryGemini : Dispatcher) : Prop :=
  forall model prompt apiKey w,
    logged (snd (queryGemini model prompt apiKey w)) = logged w
    /\ (forall answer,
          In (Answer answer) (terminal (snd (queryGemini model prompt apiKey w))) ->
          In (Answer answer) (terminal w)).

(** A dispatcher that sends at most [n] requests a call, and keeps the
    requests sent before. *)
Definition sendsAtMost (n : nat) (queryGemini : Dispatcher) : Prop :=
  forall model prompt apiKey w,
    exists more,
      sent (snd (queryGemini model prompt apiKey w)) = (sent w ++ more)%list
      /\ List.length more <= n.

(** The two lines the modes log for an exchange. *)
Definition exchangeLines (exchange : string * string) : list string :=
  [("Q: " ++ fst exchange)%string; ("A: " ++ snd exchange)%string].

(** The request the full-screen front end sends for a message of its list:
    one for a message of the user, carrying its text, none for a reply. *)
Definition requestsOf (apiKey : string) (m : InkUI.Message) : list Request :=
  if (InkUI.role m =? "user")%string then
    match InkUI.text m with
    | JString typed =>
        [mkRequest (endpointFor InkUI.MODEL apiKey) "POST" (contentsOf typed)]
    | _ => []
    end
  else [].

(** Whether the handler of the interactive loop dispatches a line. *)
Definition dispatched (line : string) : bool :=
  negb (trim line =? "") && negb (trim line =? ":exit") && negb (trim line =? ":clear").

End Notions.

(* ===================================================================== *)
(** ** Further sample inputs *)
(* ===================================================================== *)

Module Inputs.
Import JS IO.

(** The error object the remote API sends with a 404:
    [{"error":{"code":404,"status":"NOT_FOUND"}}]. *)
Definition errorBody : string :=
  "{" ++ DQ ++ "error" ++ DQ ++ ":{" ++ DQ ++ "code" ++ DQ ++ ":404,"
  ++ DQ ++ "status" ++ DQ ++ ":" ++ DQ ++ "NOT_FOUND" ++ DQ ++ "}}".

Definition errorData : JSValue :=
  JObject [("error", JObject [("code", JNumber "404"); ("status", JString "NOT_FOUND")])].

Definition notFoundJSON : Response := mkResponse 404 "Not Found" errorBody.
Definition okWithError : Response := mkResponse 200 "OK" errorBody.

(** A user file that adds a persona and empties a built-in one:
    [{"pirate":"You are a pirate.","hacker":""}]. *)
Definition userPersonas : string :=
  "{" ++ DQ ++ "pirate" ++ DQ ++ ":" ++ DQ ++ "You are a pirate." ++ DQ ++ ","
  ++ DQ ++ "hacker" ++ DQ ++ ":" ++ DQ ++ DQ ++ "}".

Definition userPersonasData : JSValue :=
  JObject [("pirate", JString "You are a pirate."); ("hacker", JString "")].

(** A world in which nothing happened yet and the network will behave as
    [outcomes] say. *)
Definition network (outcomes : list Outcome) : World := mkWorld outcomes [] [] [].

End Inputs.

(* ===================================================================== *)
(** ** Properties of the AskIt dispatcher *)
(* ===================================================================== *)

Section AskitDispatcher.
Import JS IO Observe.

Variable JSON_parse : string -> option JSValue.
Local Abbreviation queryGemini := (Askit.queryGemini JSON_parse).
Local Abbreviation conclude := (Observe.conclude JSON_parse).

Lemma fetch_responded req w res rest :
  wire w = Responded res :: rest ->
  fetch req w = (Responded res, mkWorld rest (sent w ++ [req]) (terminal w) (logged w)).
Proof. intros Hw. unfold fetch. rewrite Hw. reflexivity. Qed.

Lemma fetch_sent req w : sent (snd (fetch req w)) = (sent w ++ [req])%list.
Proof. unfold fetch. destruct (wire w); reflexivity. Qed.

Lemma issued_app w w' l : sent w' = (sent w ++ l)%list -> issued w w' = l.
Proof.
  intros H. unfold issued. rewrite H.
  rewrite skipn_app, skipn_all, Nat.sub_diag. reflexivity.
Qed.

Lemma endpointOf_current model apiKey :
  Askit.endpointOf model apiKey = endpointFor (Askit.currentModel model) apiKey.
Proof.
  unfold Askit.endpointOf.
  destruct (Askit.currentModel model =? model) eqn:E; simpl; [|reflexivity].
  apply String.eqb_eq in E. rewrite E. reflexivity.
Qed.

Lemma first_request model prompt apiKey :
  mkRequest (Askit.endpointOf model apiKey) "POST" (contentsOf prompt)
  = requestFor (Askit.currentModel model) prompt apiKey.
Proof. rewrite endpointOf_current. reflexivity. Qed.

(** One step of the dispatcher, with the retry left folded. *)
Lemma queryGemini_step model prompt apiKey w :
  queryGemini model prompt apiKey w =
  match fetch (requestFor (Askit.currentModel model) prompt apiKey) w with
  | (Rejected, w1) => (Throw FetchError, w1)
  | (Responded res, w1) =>
      if negb (ok res) && (status res =? 404)%nat
         && negb (Askit.currentModel model =? Askit.STABLE_FALLBACK_MODEL)
      then queryGemini Askit.STABLE_FALLBACK_MODEL prompt apiKey
             (write (FallbackNotice model) w1)
      else (conclude res, w1)
  end.
Proof.
  rewrite Askit.queryGemini_equation_1, first_request.
  destruct (fetch _ w) as [[res|] w1]; [|reflexivity].
  unfold Observe.conclude. cbv zeta.
  destruct (negb (ok res)); cbn [andb].
  - destruct (bool_dec _ true) as [e|n].
    + rewrite e. reflexivity.
    + apply not_true_is_false in n. rewrite n. reflexivity.
  - destruct (JSON_parse (body res)); reflexivity.
Qed.

(** On the fallback name itself the guard of the retry is false. *)
Lemma queryGemini_fallback prompt apiKey w :
  queryGemini Askit.STABLE_FALLBACK_MODEL prompt apiKey w =
  match fetch (requestFor Askit.STABLE_FALLBACK_MODEL prompt apiKey) w with
  | (Rejected, w1) => (Throw FetchError, w1)
  | (Responded res, w1) => (conclude res, w1)
  end.
Proof.
  rewrite queryGemini_step.
  change (Askit.currentModel Askit.STABLE_FALLBACK_MODEL) with Askit.STABLE_FALLBACK_MODEL.
  destruct (fetch _ w) as [[res|] w1]; [|reflexivity].
  change (Askit.STABLE_FALLBACK_MODEL =? Askit.STABLE_FALLBACK_MODEL) with true.
  rewrite andb_false_r. reflexivity.
Qed.

Lemma status_404_not_ok res : status res = 404 -> ok res = false.
Proof. intros H. unfold ok. rewrite H. reflexivity. Qed.

Lemma currentModel_corrected model :
  toLowerCase model <> Askit.STABLE_FALLBACK_MODEL ->
  includes (toLowerCase model) "pro" = true ->
  includes (toLowerCase model) "2.5" = false ->
  Askit.currentModel model = "gemini-2.5-pro".
Proof.
  intros Hne Hpro H25. unfold Askit.currentModel.
  apply String.eqb_neq in Hne. rewrite Hne, Hpro, H25. reflexivity.
Qed.

Lemma currentModel_kept model :
  toLowerCase model = Askit.STABLE_FALLBACK_MODEL
  \/ includes (toLowerCase model) "pro" = false
  \/ includes (toLowerCase model) "2.5" = true ->
  Askit.currentModel model = model.
Proof.
  intros H. unfold Askit.currentModel.
  destruct (toLowerCase model =? Askit.STABLE_FALLBACK_MODEL) eqn:E; cbn [negb]; [reflexivity|].
  destruct H as [H|[H|H]].
  - apply String.eqb_neq in E. contradiction.
  - rewrite H. reflexivity.
  - rewrite H. cbn [negb]. rewrite andb_false_r. reflexivity.
Qed.

(** The requests of one dispatch: the first attempt, and the retry with the
    fallback name when there is one. *)
Lemma issued_queryGemini model prompt apiKey w :
  let w' := snd (queryGemini model prompt apiKey w) in
  issued w w' = [requestFor (Askit.currentModel model) prompt apiKey]
  \/ issued w w' = [requestFor (Askit.currentModel model) prompt apiKey;
                    requestFor Askit.STABLE_FALLBACK_MODEL prompt apiKey].
Proof.
  cbv zeta. rewrite queryGemini_step.
  pose proof (fetch_sent (requestFor (Askit.currentModel model) prompt apiKey) w) as S1.
  destruct (fetch _ w) as [[res|] w1]; cbn [snd] in S1.
  - destruct (negb (ok res) && (status res =? 404)%nat
              && negb (Askit.currentModel model =? Askit.STABLE_FALLBACK_MODEL)).
    + right. rewrite queryGemini_fallback.
      pose proof (fetch_sent (requestFor Askit.STABLE_FALLBACK_MODEL prompt apiKey)
                             (write (FallbackNotice model) w1)) as S2.
      destruct (fetch _ (write _ w1)) as [[res2|] w2]; cbn [snd] in S2 |- *;
        apply issued_app; rewrite S2; cbn [write sent]; rewrite S1, <- app_assoc;
        reflexivity.
    + left. cbn [snd]. apply issued_app. exact S1.
  - left. cbn [snd]. apply issued_app. exact S1.
Qed.

(** The first request of a dispatch carries the current model name. *)
Lemma first_issued model prompt apiKey w :
  nth_error (issued w (snd (queryGemini model prompt apiKey w))) 0
  = Some (requestFor (Askit.currentModel model) prompt apiKey).
Proof.
  destruct (issued_queryGemini model prompt apiKey w) as [H|H];
    cbv zeta in H; rewrite H; reflexivity.
Qed.

(** A 404 on a name other than the fallback name: the dispatch is the retry. *)
Lemma queryGemini_retry model prompt apiKey w res rest :
  wire w = Responded res :: rest ->
  Askit.currentModel model <> Askit.STABLE_FALLBACK_MODEL ->
  status res = 404 ->
  queryGemini model prompt apiKey w
  = queryGemini Askit.STABLE_FALLBACK_MODEL prompt apiKey
      (write (FallbackNotice model)
         (mkWorld rest (sent w ++ [requestFor (Askit.currentModel model) prompt apiKey])
                  (terminal w) (logged w))).
Proof.
  intros Hw Hne H404. rewrite queryGemini_step, (fetch_responded _ _ _ _ Hw).
  rewrite (status_404_not_ok _ H404), H404.
  apply String.eqb_neq in Hne. rewrite Hne. reflexivity.
Qed.

(** An attempt that is not retried. *)
Lemma queryGemini_final model prompt apiKey w res rest :
  wire w = Responded res :: rest ->
  ok res = true \/ status res <> 404
  \/ Askit.currentModel model = Askit.STABLE_FALLBACK_MODEL ->
  queryGemini model prompt apiKey w
  = (conclude res,
     mkWorld rest (sent w ++ [requestFor (Askit.currentModel model) prompt apiKey])
             (terminal w) (logged w)).
Proof.
  intros Hw H. rewrite queryGemini_step, (fetch_responded _ _ _ _ Hw).
  destruct H as [H|[H|H]].
  - rewrite H. reflexivity.
  - apply Nat.eqb_neq in H. rewrite H, andb_false_r. reflexivity.
  - apply String.eqb_eq in H. rewrite H. cbn [negb]. rewrite andb_false_r. reflexivity.
Qed.

(** C2. When the lower-cased requested name is not the stable fallback name
    and contains [pro] but not [2.5], the first request of the dispatch goes
    to the address whose model segment is [gemini-2.5-pro]; for every other
    requested name the first request goes to the address built from the
    requested name itself. *)
Theorem first_attempt_model_segment (model prompt apiKey : string) (w : World) :
  let lowered := toLowerCase model in
  let first := nth_error (issued w (snd (queryGemini model prompt apiKey w))) 0 in
  (lowered <> Askit.STABLE_FALLBACK_MODEL ->
   includes lowered "pro" = true ->
   includes lowered "2.5" = false ->
   first = Some (mkRequest
                   ("https://generativelanguage.googleapis.com/v1beta/models/"
                    ++ "gemini-2.5-pro" ++ ":generateContent?key=" ++ apiKey)
                   "POST" (contentsOf prompt)))
  /\ (lowered = Askit.STABLE_FALLBACK_MODEL
      \/ includes lowered "pro" = false
      \/ includes lowered "2.5" = true ->
      first = Some (mkRequest
                      ("https://generativelanguage.googleapis.com/v1beta/models/"
                       ++ model ++ ":generateContent?key=" ++ apiKey)
                      "POST" (contentsOf prompt))).
Proof.
  cbv zeta. rewrite first_issued. split.
  - intros Hne Hpro H25. rewrite (currentModel_corrected _ Hne Hpro H25). reflexivity.
  - intros H. rewrite (currentModel_kept _ H). reflexivity.
Qed.

(** C3. When the first response has status 404 and the current (possibly
    corrected) model name is not the stable fallback name, the dispatch
    issues exactly two requests, the second to the stable fallback model,
    and completes as that retry does: with the retry's extracted reply when
    the retry succeeds.  When the first response has a status outside
    200..299 other than 404, the dispatch throws the RemoteError after that
    single request. *)
Theorem retry_once_on_404 (model prompt apiKey : string) (w : World)
  (res : Response) (rest : list Outcome) :
  wire w = Responded res :: rest ->
  let first := requestFor (Askit.currentModel model) prompt apiKey in
  let afterFirst := mkWorld rest (sent w ++ [first]) (terminal w) (logged w) in
  (Askit.currentModel model <> Askit.STABLE_FALLBACK_MODEL ->
   status res = 404 ->
   queryGemini model prompt apiKey w
   = queryGemini Askit.STABLE_FALLBACK_MODEL prompt apiKey
       (write (FallbackNotice model) afterFirst)
   /\ issued w (snd (queryGemini model prompt apiKey w))
      = [first; requestFor Askit.STABLE_FALLBACK_MODEL prompt apiKey]
   /\ (forall res2 rest2 data,
         rest = Responded res2 :: rest2 ->
         ok res2 = true ->
         JSON_parse (body res2) = Some data ->
         fst (queryGemini model prompt apiKey w)
         = Return (or_else (replyText data) (JString Askit.noTextPlaceholder))))
  /\ (ok res = false ->
      status res <> 404 ->
      queryGemini model prompt apiKey w = (Throw (RemoteError res), afterFirst)
      /\ issued w (snd (queryGemini model prompt apiKey w)) = [first]).
Proof.
  intros Hw. cbv zeta. split.
  - intros Hne H404.
    pose proof (queryGemini_retry model prompt apiKey w res rest Hw Hne H404) as Hretry.
    split; [exact Hretry|]. split.
    + rewrite Hretry, queryGemini_fallback.
      match goal with |- context [fetch ?r ?x] =>
        pose proof (fetch_sent r x) as S2; destruct (fetch r x) as [[r2|] w2] end;
        cbn [snd] in S2 |- *; apply issued_app; rewrite S2; cbn [write sent];
        rewrite <- app_assoc; reflexivity.
    + intros res2 rest2 data Hrest Hok Hparse.
      rewrite Hretry.
      rewrite (queryGemini_final Askit.STABLE_FALLBACK_MODEL prompt apiKey _ res2 rest2).
      * cbn [fst]. unfold Observe.conclude. rewrite Hok, Hparse. reflexivity.
      * cbn [write wire]. exact Hrest.
      * left. exact Hok.
  - intros Hok Hne.
    rewrite (queryGemini_final model prompt apiKey w res rest Hw (or_intror (or_introl Hne))).
    unfold Observe.conclude. rewrite Hok. cbn [negb snd]. split; [reflexivity|].
    apply issued_app. reflexivity.
Qed.

(** C4. The dispatcher is a total function: every dispatch completes, after
    one request or after two, the second being the retry with the stable
    fallback name.  A dispatch on the stable fallback name issues exactly
    one request whatever the network answers, so the retry is never itself
    retried; when the answer to it has status 404 it throws the RemoteError. *)
Theorem at_most_two_attempts (model prompt apiKey : string) (w : World) :
  (exists result w', queryGemini model prompt apiKey w = (result, w')
     /\ (issued w w' = [requestFor (Askit.currentModel model) prompt apiKey]
         \/ issued w w' = [requestFor (Askit.currentModel model) prompt apiKey;
                           requestFor Askit.STABLE_FALLBACK_MODEL prompt apiKey])
     /\ List.length (issued w w') <= 2)
  /\ Askit.retryRank model <= 1
  /\ (forall w1,
        issued w1 (snd (queryGemini Askit.STABLE_FALLBACK_MODEL prompt apiKey w1))
        = [requestFor Askit.STABLE_FALLBACK_MODEL prompt apiKey])
  /\ (forall res rest,
        wire w = Responded res :: rest ->
        status res = 404 ->
        queryGemini Askit.STABLE_FALLBACK_MODEL prompt apiKey w
        = (Throw (RemoteError res),
           mkWorld rest (sent w ++ [requestFor Askit.STABLE_FALLBACK_MODEL prompt apiKey])
                   (terminal w) (logged w))).
Proof.
  split; [|split; [|split]].
  - destruct (queryGemini model prompt apiKey w) as [result w'] eqn:E.
    exists result, w'. split; [reflexivity|].
    pose proof (issued_queryGemini model prompt apiKey w) as H.
    cbv zeta in H. rewrite E in H. cbn [snd] in H.
    split; [exact H|]. destruct H as [H|H]; rewrite H; cbn [List.length]; lia.
  - unfold Askit.retryRank. destruct (model =? Askit.STABLE_FALLBACK_MODEL); lia.
  - intros w1. rewrite queryGemini_fallback.
    match goal with |- context [fetch ?r ?x] =>
      pose proof (fetch_sent r x) as S1; destruct (fetch r x) as [[r1|] w2] end;
      cbn [snd] in S1 |- *; apply issued_app; exact S1.
  - intros res rest Hw H404.
    rewrite (queryGemini_final Askit.STABLE_FALLBACK_MODEL prompt apiKey w res rest Hw).
    + unfold Observe.conclude. rewrite (status_404_not_ok _ H404). reflexivity.
    + right. right. reflexivity.
Qed.

(** C10. A requested name that lower-cases to the stable fallback name
    without being it is not corrected, and the first request carries it
    unchanged; a 404 on it is followed by the retry with the stable
    fallback name, the guard of the retry comparing the names as they are. *)
Theorem case_variant_of_fallback_retries (model prompt apiKey : string) (w : World)
  (res : Response) (rest : list Outcome) :
  toLowerCase model = Askit.STABLE_FALLBACK_MODEL ->
  model <> Askit.STABLE_FALLBACK_MODEL ->
  Askit.currentModel model = model
  /\ nth_error (issued w (snd (queryGemini model prompt apiKey w))) 0
     = Some (requestFor model prompt apiKey)
  /\ (wire w = Responded res :: rest ->
      status res = 404 ->
      issued w (snd (queryGemini model prompt apiKey w))
      = [requestFor model prompt apiKey;
         requestFor Askit.STABLE_FALLBACK_MODEL prompt apiKey]
      /\ queryGemini model prompt apiKey w
         = queryGemini Askit.STABLE_FALLBACK_MODEL prompt apiKey
             (write (FallbackNotice model)
                (mkWorld rest (sent w ++ [requestFor model prompt apiKey])
                         (terminal w) (logged w)))).
Proof.
  intros Hlow Hne.
  assert (Hcur : Askit.currentModel model = model)
    by (apply currentModel_kept; left; exact Hlow).
  split; [exact Hcur|]. split.
  - rewrite first_issued, Hcur. reflexivity.
  - intros Hw H404.
    assert (Hne' : Askit.currentModel model <> Askit.STABLE_FALLBACK_MODEL)
      by (rewrite Hcur; exact Hne).
    pose proof (queryGemini_retry model prompt apiKey w res rest Hw Hne' H404) as Hretry.
    rewrite Hcur in Hretry. split; [|exact Hretry].
    rewrite Hretry, queryGemini_fallback.
    match goal with |- context [fetch ?r ?x] =>
      pose proof (fetch_sent r x) as S2; destruct (fetch r x) as [[r2|] w2] end;
      cbn [snd] in S2 |- *; apply issued_app; rewrite S2; cbn [write sent];
      rewrite <- app_assoc; reflexivity.
Qed.

End AskitDispatcher.

(* ===================================================================== *)
(** ** Success responses: parsing and extraction *)
(* ===================================================================== *)

Section SuccessBody.
Import JS IO Observe.

Variable JSON_parse : string -> option JSValue.

Lemma optChain_missing v key : missing v -> optChain v key = JUndefined.
Proof. intros [H|H]; rewrite H; reflexivity. Qed.

Lemma replyText_path data :
  replyText data = textOf (firstPart (contentOf (firstCandidate data))).
Proof. reflexivity. Qed.

(** A missing link anywhere on the path leaves nothing truthy at its end. *)
Lemma missing_link_falsy data :
  missing (firstCandidate data)
  \/ missing (contentOf (firstCandidate data))
  \/ missing (firstPart (contentOf (firstCandidate data)))
  \/ missing (textOf (firstPart (contentOf (firstCandidate data)))) ->
  truthy (replyText data) = false.
Proof.
  rewrite replyText_path.
  intros [H|[H|[H|H]]].
  - unfold contentOf. rewrite (optChain_missing _ "content" H). reflexivity.
  - unfold firstPart. rewrite (optChain_missing _ "parts" H). reflexivity.
  - unfold textOf. rewrite (optChain_missing _ "text" H). reflexivity.
  - destruct H as [H|H]; rewrite H; reflexivity.
Qed.

Lemma askit_success model prompt apiKey w res rest :
  wire w = Responded res :: rest ->
  ok res = true ->
  fst (Askit.queryGemini JSON_parse model prompt apiKey w) = conclude JSON_parse res.
Proof.
  intros Hw Hok.
  rewrite (queryGemini_final JSON_parse model prompt apiKey w res rest Hw (or_introl Hok)).
  reflexivity.
Qed.

Lemma termigpt_success model prompt apiKey w res rest :
  wire w = Responded res :: rest ->
  ok res = true ->
  fst (Termigpt.queryGemini JSON_parse model prompt apiKey w)
  = match JSON_parse (body res) with
    | Some data => Return (or_else (replyText data) (JString Termigpt.noResponsePlaceholder))
    | None => Throw SyntaxErrorJSON
    end.
Proof.
  intros Hw Hok. unfold Termigpt.queryGemini.
  rewrite (fetch_responded _ _ _ _ Hw), Hok. cbn [negb].
  destruct (JSON_parse (body res)); reflexivity.
Qed.

(** C5. On a response with success status whose body [JSON.parse] rejects,
    no value is returned.  AskIt throws the TypeError that [new new Error]
    raises: it is not the Error carrying the first hundred characters of the
    body that the catch block spells out.  TermiGPT lets the SyntaxError of
    [JSON.parse] through. *)
Theorem parse_failure_throws_without_body_prefix
  (model prompt apiKey : string) (w : World) (res : Response) (rest : list Outcome) :
  wire w = Responded res :: rest ->
  ok res = true ->
  JSON_parse (body res) = None ->
  fst (Askit.queryGemini JSON_parse model prompt apiKey w) = Throw TypeErrorNotAConstructor
  /\ fst (Askit.queryGemini JSON_parse model prompt apiKey w) <> Throw (ParseError res)
  /\ fst (Termigpt.queryGemini JSON_parse model prompt apiKey w) = Throw SyntaxErrorJSON.
Proof.
  intros Hw Hok Hparse.
  rewrite (askit_success _ _ _ _ _ _ Hw Hok), (termigpt_success _ _ _ _ _ _ Hw Hok).
  unfold conclude. rewrite Hok, Hparse. cbn [negb].
  split; [reflexivity|]. split; [|reflexivity].
  unfold Askit.newOnInstance, ParseError. discriminate.
Qed.

(** C6. On a response with success status and a body that parses, each
    dispatcher returns its placeholder, and throws nothing, as soon as one
    link of the path (first candidate, its content, its first part, its text
    field) is missing; when the path ends in a non-empty string, that string
    is returned. *)
Theorem extraction_returns_text_or_placeholder
  (model prompt apiKey : string) (w : World) (res : Response) (rest : list Outcome)
  (data : JSValue) :
  wire w = Responded res :: rest ->
  ok res = true ->
  JSON_parse (body res) = Some data ->
  let candidate := firstCandidate data in
  let content := contentOf candidate in
  let part := firstPart content in
  let text := textOf part in
  (missing candidate \/ missing content \/ missing part \/ missing text ->
   fst (Askit.queryGemini JSON_parse model prompt apiKey w)
   = Return (JString "(No text response from Gemini. The API may have returned a blocked or empty response.)")
   /\ fst (Termigpt.queryGemini JSON_parse model prompt apiKey w)
      = Return (JString "(no response)"))
  /\ (forall s, text = JString s -> s <> "" ->
      fst (Askit.queryGemini JSON_parse model prompt apiKey w) = Return (JString s)
      /\ fst (Termigpt.queryGemini JSON_parse model prompt apiKey w) = Return (JString s)).
Proof.
  intros Hw Hok Hparse. cbv zeta.
  rewrite (askit_success _ _ _ _ _ _ Hw Hok), (termigpt_success _ _ _ _ _ _ Hw Hok).
  unfold conclude. rewrite Hok, Hparse. cbn [negb]. split.
  - intros Hmiss. apply missing_link_falsy in Hmiss.
    unfold or_else. rewrite Hmiss. split; reflexivity.
  - intros s Htext Hs. rewrite replyText_path, Htext.
    unfold or_else. cbn [truthy].
    apply String.eqb_neq in Hs. rewrite Hs. split; reflexivity.
Qed.

End SuccessBody.

(* ===================================================================== *)
(** ** Personas *)
(* ===================================================================== *)

Section Personas.
Import JS IO Persona.

Variable JSON_parse : string -> option JSValue.

Lemma assoc_app key (a b : list (string * JSValue)) :
  assoc key (a ++ b) = match assoc key a with Some v => Some v | None => assoc key b end.
Proof.
  induction a as [|[k v] a IH]; [reflexivity|].
  cbn [assoc app]. destruct (k =? key); [reflexivity|exact IH].
Qed.

(** The merged mapping always has an own [default] property. *)
Lemma default_always_present (userFile : option string) :
  assoc "default" (loadPersonalities JSON_parse userFile) <> None.
Proof.
  unfold loadPersonalities, spread. rewrite assoc_app.
  destruct (assoc "default" (ownEnumerable _)); [discriminate|].
  cbn. discriminate.
Qed.

(** A style that names neither an own property of the mapping nor a property
    of [Object.prototype] gets the prompt of [default]. *)
Lemma unknown_style_uses_default (style : string) (personalities : list (string * JSValue)) :
  assoc style personalities = None ->
  assoc style Object_prototype = None ->
  buildSystemPrompt style personalities = buildSystemPrompt "default" personalities.
Proof.
  intros Hown Hproto. unfold buildSystemPrompt.
  replace (getProperty personalities style) with JUndefined
    by (unfold getProperty; rewrite Hown, Hproto; reflexivity).
  unfold or_else. cbn [truthy].
  destruct (truthy (getProperty personalities "default")); reflexivity.
Qed.

(** C7. Without a user file, [constructor] is not a key of the merged
    mapping, in which [default] is present; yet the prompt built for the
    style [constructor] opens with the rendering of the function inherited
    from [Object.prototype], not with the instruction text of [default]. *)
Theorem inherited_name_defeats_default_fallback :
  let personalities := loadPersonalities JSON_parse None in
  assoc "constructor" personalities = None
  /\ assoc "default" personalities
     = Some (JString "You are a helpful, concise assistant. Prefer short, actionable answers with examples when relevant.")
  /\ buildSystemPrompt "constructor" personalities
     = Return ("function Object() { [native code] }" ++ promptRules)
  /\ buildSystemPrompt "constructor" personalities
     <> buildSystemPrompt "default" personalities.
Proof.
  cbv zeta. split; [reflexivity|]. split; [reflexivity|]. split; [reflexivity|].
  vm_compute. discriminate.
Qed.

End Personas.

(* ===================================================================== *)
(** ** The interactive loop *)
(* ===================================================================== *)

Section InteractiveLoop.
Import JS IO Persona Chat Observe.

Variable JSON_parse : string -> option JSValue.
Variable queryGemini : string -> string -> string -> World -> Completion JSValue * World.

Local Abbreviation onLine := (Chat.onLine queryGemini).
Local Abbreviation onLines := (Chat.onLines queryGemini).

Lemma chatMode_settled style long model apiKey userFile w s0 w0 :
  chatMode JSON_parse style long model apiKey userFile w = (Return s0, w0) ->
  settled s0
  /\ buildSystemPrompt style (loadPersonalities JSON_parse userFile) = Return (context s0)
  /\ closed s0 = false.
Proof.
  unfold chatMode, settled.
  destruct (buildSystemPrompt style _) as [c|e] eqn:E; intros H; inversion H; subst.
  cbn. rewrite E. repeat split.
Qed.

Lemma withContext_same s : withContext s (context s) = s.
Proof. destruct s. reflexivity. Qed.

(** Handling a line leaves the session as it is, or closes it: nothing is
    ever added to [context]. *)
Lemma onLine_session s line w :
  settled s -> fst (onLine s line w) = s \/ fst (onLine s line w) = close s.
Proof.
  intros Hs. unfold Chat.onLine.
  destruct (closed s); [left; reflexivity|].
  destruct (trim line =? ""); [left; reflexivity|].
  destruct (trim line =? ":exit"); [right; reflexivity|].
  destruct (trim line =? ":clear").
  - unfold settled in Hs. rewrite Hs, withContext_same. left. reflexivity.
  - destruct (queryGemini _ _ _ w). left. reflexivity.
Qed.

Lemma onLine_closed s line w : closed s = true -> onLine s line w = (s, w).
Proof. intros H. unfold Chat.onLine. rewrite H. reflexivity. Qed.

Lemma onLines_closed s lines w : closed s = true -> onLines s lines w = (s, w).
Proof.
  intros H. revert w. induction lines as [|l lines IH]; intros w; [reflexivity|].
  cbn [Chat.onLines]. rewrite (onLine_closed _ _ _ H). apply IH.
Qed.

Lemma onLines_session s lines w :
  settled s -> fst (onLines s lines w) = s \/ fst (onLines s lines w) = close s.
Proof.
  revert s w. induction lines as [|l lines IH]; intros s w Hs; [left; reflexivity|].
  cbn [Chat.onLines].
  pose proof (onLine_session s l w Hs) as H1.
  destruct (Chat.onLine queryGemini s l w) as [s1 w1]. cbn [fst] in H1.
  destruct H1 as [H1|H1]; subst s1.
  - apply IH. exact Hs.
  - right. rewrite onLines_closed; reflexivity.
Qed.

Lemma onLines_context s lines w :
  settled s ->
  context (fst (onLines s lines w)) = context s /\ settled (fst (onLines s lines w)).
Proof.
  intros Hs. destruct (onLines_session s lines w Hs) as [H|H]; rewrite H;
    split; try reflexivity; exact Hs.
Qed.

(** A dispatchable line on an open session: one call of the dispatcher, on
    the context followed by this line alone. *)
Lemma onLine_dispatch s line w :
  closed s = false ->
  dispatchable line ->
  onLine s line w
  = (s, write Prompt
          (let (result, w1) :=
             queryGemini (model s) (turnPrompt (context s) (trim line) (long s)) (apiKey s) w in
           match bind result ToString with
           | Return answer =>
               logLine ("A: " ++ answer)
                 (logLine ("Q: " ++ trim line) (write (Answer answer) w1))
           | Throw err => write (ErrorMessage err) w1
           end)).
Proof.
  intros Hopen (Hne & Hexit & Hclear). unfold Chat.onLine. rewrite Hopen.
  apply String.eqb_neq in Hne, Hexit, Hclear. rewrite Hne, Hexit, Hclear.
  unfold fullPrompt, turnPrompt.
  destruct (queryGemini _ _ _ w). reflexivity.
Qed.

(** C8. Whatever context a session holds, handling a line that is the clear
    command on it sets the context to the prompt constructed at session
    start for the style of the session, and writes only the notice and the
    prompt.  In particular, whatever lines were handled since the session
    started, after the clear command the context is equal to the context at
    session start, and the requests sent and the pending network outcomes
    are as they were: the dispatcher is not called. *)
Theorem clear_restores_initial_context
  (style : string) (long : bool) (model apiKey : string) (userFile : option string)
  (w : World) (s0 : Session) (w0 : World) (lines : list string) (line : string) :
  chatMode JSON_parse style long model apiKey userFile w = (Return s0, w0) ->
  trim line = ":clear" ->
  let s1 := fst (onLines s0 lines w0) in
  let w1 := snd (onLines s0 lines w0) in
  let s2 := fst (onLine s1 line w1) in
  let w2 := snd (onLine s1 line w1) in
  buildSystemPrompt style (loadPersonalities JSON_parse userFile) = Return (context s0)
  /\ context s2 = context s0
  /\ sent w2 = sent w1
  /\ wire w2 = wire w1
  /\ (w2 = w1 \/ w2 = write Prompt (write ContextCleared w1))
  /\ (forall (held : Session) (wh : World),
        Chat.style held = style ->
        personalities held = loadPersonalities JSON_parse userFile ->
        closed held = false ->
        onLine held line wh
        = (mkSession style (Chat.long held) (Chat.model held) (Chat.apiKey held)
                     (loadPersonalities JSON_parse userFile) (context s0) false,
           write Prompt (write ContextCleared wh))).
Proof.
  intros Hstart Hclear. cbv zeta.
  destruct (chatMode_settled _ _ _ _ _ _ _ _ Hstart) as (Hs0 & Hbuilt & _).
  assert (Hreset : forall (held : Session) (wh : World),
            Chat.style held = style ->
            personalities held = loadPersonalities JSON_parse userFile ->
            closed held = false ->
            onLine held line wh
            = (mkSession style (Chat.long held) (Chat.model held) (Chat.apiKey held)
                         (loadPersonalities JSON_parse userFile) (context s0) false,
               write Prompt (write ContextCleared wh))).
  { intros held wh Hstyle Hpersonas Hopen. unfold Chat.onLine.
    rewrite Hopen, Hclear. cbn [String.eqb Ascii.eqb Bool.eqb]. cbv iota.
    rewrite Hstyle, Hpersonas, Hbuilt. unfold withContext.
    rewrite Hstyle, Hpersonas, Hopen. reflexivity. }
  destruct (onLines_context s0 lines w0 Hs0) as [Hctx Hs1].
  destruct (onLines s0 lines w0) as [s1 w1]. cbn [fst snd] in *.
  split; [exact Hbuilt|].
  assert (Hafter :
            context (fst (onLine s1 line w1)) = context s0
            /\ sent (snd (onLine s1 line w1)) = sent w1
            /\ wire (snd (onLine s1 line w1)) = wire w1
            /\ (snd (onLine s1 line w1) = w1
                \/ snd (onLine s1 line w1) = write Prompt (write ContextCleared w1))).
  { unfold Chat.onLine. destruct (closed s1).
    - cbn [fst snd]. repeat split; try assumption. left. reflexivity.
    - rewrite Hclear. cbn [String.eqb Ascii.eqb Bool.eqb]. cbv iota.
      unfold settled in Hs1. rewrite Hs1.
      cbn [fst snd write sent wire context withContext].
      repeat split; try assumption. right. reflexivity. }
  destruct Hafter as (H1 & H2 & H3 & H4).
  split; [exact H1|]. split; [exact H2|]. split; [exact H3|]. split; [exact H4|].
  exact Hreset.
Qed.

End InteractiveLoop.

(* ===================================================================== *)
(** ** User turns in the interactive loops of the two command lines *)
(* ===================================================================== *)

Section UserTurns.
Import JS IO Persona Chat Observe.

Variable JSON_parse : string -> option JSValue.

Lemma issued_termigpt model prompt apiKey w :
  issued w (snd (Termigpt.queryGemini JSON_parse model prompt apiKey w))
  = [requestFor model prompt apiKey].
Proof.
  unfold Termigpt.queryGemini.
  match goal with |- context [fetch ?r ?x] =>
    pose proof (fetch_sent r x) as S1; destruct (fetch r x) as [[res|] w1] end;
    cbn [snd] in S1; apply issued_app;
    [destruct (negb (ok res)); [|destruct (JSON_parse (body res))]|]; exact S1.
Qed.

(** The handler adds nothing to the requests its dispatcher call sends. *)
Lemma onLine_dispatch_sent queryGemini s line w :
  closed s = false ->
  dispatchable line ->
  fst (Chat.onLine queryGemini s line w) = s
  /\ sent (snd (Chat.onLine queryGemini s line w))
     = sent (snd (queryGemini (model s) (turnPrompt (context s) (trim line) (long s))
                              (apiKey s) w)).
Proof.
  intros Hopen Hline. rewrite (onLine_dispatch queryGemini s line w Hopen Hline).
  split; [reflexivity|].
  destruct (queryGemini _ _ _ w) as [result w1]. cbn [snd].
  destruct (bind result ToString); reflexivity.
Qed.

Lemma issued_onLine queryGemini s line w :
  closed s = false ->
  dispatchable line ->
  issued w (snd (Chat.onLine queryGemini s line w))
  = issued w (snd (queryGemini (model s) (turnPrompt (context s) (trim line) (long s))
                               (apiKey s) w)).
Proof.
  intros Hopen Hline. unfold issued.
  destruct (onLine_dispatch_sent queryGemini s line w Hopen Hline) as [_ H].
  rewrite H. reflexivity.
Qed.

(** C1. After a first dispatched line the session is what it was, its
    context included; the request sent for a second dispatched line carries
    the context of before the first line followed by the second user turn
    alone.  The first user turn is in no prompt but its own. *)
Theorem second_prompt_holds_second_turn_only
  (s : Session) (first second : string) (w : World) :
  closed s = false ->
  dispatchable first ->
  dispatchable second ->
  let prompt2 := context s ++ LF ++ "User: " ++ trim second
                 ++ (if long s then LF ++ "Be detailed and thorough." else "") in
  (let askit := Chat.onLine (Askit.queryGemini JSON_parse) in
   let s1 := fst (askit s first w) in
   let w1 := snd (askit s first w) in
   context s1 = context s
   /\ nth_error (issued w1 (snd (askit s1 second w1))) 0
      = Some (requestFor (Askit.currentModel (model s)) prompt2 (apiKey s)))
  /\ (let termigpt := Chat.onLine (Termigpt.queryGemini JSON_parse) in
      let s1 := fst (termigpt s first w) in
      let w1 := snd (termigpt s first w) in
      context s1 = context s
      /\ issued w1 (snd (termigpt s1 second w1))
         = [requestFor (model s) prompt2 (apiKey s)]).
Proof.
  intros Hopen H1 H2. cbv zeta. split.
  - destruct (onLine_dispatch_sent (Askit.queryGemini JSON_parse) s first w Hopen H1) as [Hs _].
    rewrite Hs. split; [reflexivity|].
    rewrite (issued_onLine _ s second _ Hopen H2). apply first_issued.
  - destruct (onLine_dispatch_sent (Termigpt.queryGemini JSON_parse) s first w Hopen H1) as [Hs _].
    rewrite Hs. split; [reflexivity|].
    rewrite (issued_onLine _ s second _ Hopen H2). apply issued_termigpt.
Qed.

End UserTurns.

(* ===================================================================== *)
(** ** The transcript save of the full-screen front end *)
(* ===================================================================== *)

Section TranscriptSave.
Import JS IO InkUI Observe.

Variable JSON_parse : string -> option JSValue.
Variable API_KEY : string.

Lemma handleSubmit_listeners ui w :
  firstRenderListeners ui ->
  firstRenderListeners (fst (handleSubmit JSON_parse API_KEY ui w)).
Proof.
  intros H. unfold handleSubmit.
  destruct (trim (input ui) =? ""); [exact H|].
  destruct (queryGemini JSON_parse API_KEY (input ui) w) as [[reply|e] w1]; exact H.
Qed.

Lemma drive_listeners gestures ui w :
  firstRenderListeners ui ->
  firstRenderListeners (fst (drive JSON_parse API_KEY gestures ui w)).
Proof.
  revert ui w. induction gestures as [|g gestures IH]; intros ui w H; [exact H|].
  destruct g as [value|]; cbn [drive].
  - apply IH. exact H.
  - pose proof (handleSubmit_listeners ui w H) as H1.
    destruct (handleSubmit JSON_parse API_KEY ui w) as [ui1 w1]. apply IH. exact H1.
Qed.

(** Saving again with the same messages at the same instant repeats the
    same write; the file holds the same data. *)
Lemma saveLog_twice messages now disk saved :
  saveLog messages now disk = Return saved ->
  exists data,
    saved = (disk ++ [(logFileName now, data)])%list
    /\ saveLog messages now saved
       = Return (saved ++ [(logFileName now, data)])%list.
Proof.
  unfold saveLog. destruct (transcript messages) as [data|e]; cbn [bind]; intros H;
    inversion H; subst. exists data. split; reflexivity.
Qed.

(** C9. However the front end was driven since it was mounted, an interrupt
    and a normal exit each make exactly one write, of the transcript of the
    message list of the first render, which is empty: the file holds the
    empty text whatever the message list holds at shutdown. *)
Theorem shutdown_writes_first_render_transcript
  (gestures : list Gesture) (w : World) (now later : N) (disk : Disk) :
  let ui := fst (drive JSON_parse API_KEY gestures mount w) in
  let written := (disk ++ [(logFileName now, EmptyString)])%list in
  interrupt now later ui disk = Return (exit ui, written)
  /\ normalExit now ui disk = Return (exit ui, written).
Proof.
  cbv zeta.
  assert (H0 : firstRenderListeners mount) by (split; reflexivity).
  destruct (drive_listeners gestures mount w H0) as [Hint Hexit].
  destruct (drive JSON_parse API_KEY gestures mount w) as [ui w1]. cbn [fst] in *.
  unfold interrupt, normalExit. rewrite Hint, Hexit. split; reflexivity.
Qed.

End TranscriptSave.

(* ===================================================================== *)
(** ** The properties on sample inputs *)
(* ===================================================================== *)

Section Runs.
Import JS IO Persona Chat Observe Samples.

(** The reader on the sample bodies. *)
Example parse_replyBody : JSONText.parse (replyBody "hi") = Some (replyData "hi").
Proof. reflexivity. Qed.

Example parse_htmlPage : JSONText.parse (body htmlPage) = None.
Proof. reflexivity. Qed.

Ltac differ := vm_compute; discriminate.

(** [gemini-pro] is corrected, [gemini-1.5-flash] is not. *)
Lemma first_attempt_model_segment_witness :
  (toLowerCase "gemini-pro" <> Askit.STABLE_FALLBACK_MODEL
   /\ includes (toLowerCase "gemini-pro") "pro" = true
   /\ includes (toLowerCase "gemini-pro") "2.5" = false)
  /\ nth_error (issued (online [okReply "hi"])
                  (snd (Askit.queryGemini JSONText.parse "gemini-pro" "hello" "KEY"
                          (online [okReply "hi"])))) 0
     = Some (mkRequest
               "https://generativelanguage.googleapis.com/v1beta/models/gemini-2.5-pro:generateContent?key=KEY"
               "POST" (contentsOf "hello"))
  /\ nth_error (issued (online [okReply "hi"])
                  (snd (Askit.queryGemini JSONText.parse "gemini-1.5-flash" "hello" "KEY"
                          (online [okReply "hi"])))) 0
     = Some (mkRequest
               "https://generativelanguage.googleapis.com/v1beta/models/gemini-1.5-flash:generateContent?key=KEY"
               "POST" (contentsOf "hello")).
Proof.
  assert (H1 : toLowerCase "gemini-pro" <> Askit.STABLE_FALLBACK_MODEL) by differ.
  split; [split; [exact H1|split; reflexivity]|]. split.
  - exact (proj1 (first_attempt_model_segment JSONText.parse "gemini-pro" "hello" "KEY"
                    (online [okReply "hi"])) H1 eq_refl eq_refl).
  - exact (proj2 (first_attempt_model_segment JSONText.parse "gemini-1.5-flash" "hello" "KEY"
                    (online [okReply "hi"])) (or_intror (or_introl eq_refl))).
Defined.

(** A 404 on [gemini-pro], then a reply; and a 500. *)
Lemma retry_once_on_404_witness :
  let w := online [notFound; okReply "hi"] in
  let w500 := online [serverError; okReply "hi"] in
  (wire w = Responded notFound :: [Responded (okReply "hi")]
   /\ Askit.currentModel "gemini-pro" <> Askit.STABLE_FALLBACK_MODEL
   /\ status notFound = 404)
  /\ issued w (snd (Askit.queryGemini JSONText.parse "gemini-pro" "hello" "KEY" w))
     = [requestFor "gemini-2.5-pro" "hello" "KEY"; requestFor "gemini-2.5-flash" "hello" "KEY"]
  /\ fst (Askit.queryGemini JSONText.parse "gemini-pro" "hello" "KEY" w)
     = Return (JString "hi")
  /\ fst (Askit.queryGemini JSONText.parse "gemini-pro" "hello" "KEY" w500)
     = Throw (RemoteError serverError)
  /\ issued w500 (snd (Askit.queryGemini JSONText.parse "gemini-pro" "hello" "KEY" w500))
     = [requestFor "gemini-2.5-pro" "hello" "KEY"].
Proof.
  cbv zeta.
  assert (Hne : Askit.currentModel "gemini-pro" <> Askit.STABLE_FALLBACK_MODEL) by differ.
  assert (H500 : status serverError <> 404) by differ.
  destruct (retry_once_on_404 JSONText.parse "gemini-pro" "hello" "KEY"
              (online [notFound; okReply "hi"]) notFound [Responded (okReply "hi")] eq_refl)
    as [Hretry _].
  destruct (Hretry Hne eq_refl) as (_ & Hissued & Hreply).
  destruct (retry_once_on_404 JSONText.parse "gemini-pro" "hello" "KEY"
              (online [serverError; okReply "hi"]) serverError [Responded (okReply "hi")] eq_refl)
    as [_ Hfail].
  destruct (Hfail eq_refl H500) as [Hthrow Hone].
  split; [split; [reflexivity|split; [exact Hne|reflexivity]]|].
  split; [exact Hissued|].
  split; [exact (Hreply (okReply "hi") [] (replyData "hi") eq_refl eq_refl eq_refl)|].
  split; [rewrite Hthrow; reflexivity|exact Hone].
Defined.

(** A 404 on the fallback name itself. *)
Lemma at_most_two_attempts_witness :
  let w := online [notFound; okReply "hi"] in
  wire w = Responded notFound :: [Responded (okReply "hi")]
  /\ status notFound = 404
  /\ Askit.queryGemini JSONText.parse "gemini-2.5-flash" "hello" "KEY" w
     = (Throw (RemoteError notFound),
        mkWorld [Responded (okReply "hi")] [requestFor "gemini-2.5-flash" "hello" "KEY"] [] []).
Proof.
  cbv zeta. split; [reflexivity|]. split; [reflexivity|].
  destruct (at_most_two_attempts JSONText.parse "gemini-2.5-flash" "hello" "KEY"
              (online [notFound; okReply "hi"])) as (_ & _ & _ & Hfallback).
  exact (Hfallback notFound [Responded (okReply "hi")] eq_refl eq_refl).
Defined.

(** [Gemini-2.5-Flash]: kept as typed, retried on 404. *)
Lemma case_variant_of_fallback_retries_witness :
  let w := online [notFound; okReply "hi"] in
  (toLowerCase "Gemini-2.5-Flash" = Askit.STABLE_FALLBACK_MODEL
   /\ "Gemini-2.5-Flash" <> Askit.STABLE_FALLBACK_MODEL)
  /\ Askit.currentModel "Gemini-2.5-Flash" = "Gemini-2.5-Flash"
  /\ issued w (snd (Askit.queryGemini JSONText.parse "Gemini-2.5-Flash" "hello" "KEY" w))
     = [requestFor "Gemini-2.5-Flash" "hello" "KEY"; requestFor "gemini-2.5-flash" "hello" "KEY"].
Proof.
  cbv zeta.
  assert (Hne : "Gemini-2.5-Flash" <> Askit.STABLE_FALLBACK_MODEL) by differ.
  destruct (case_variant_of_fallback_retries JSONText.parse "Gemini-2.5-Flash" "hello" "KEY"
              (online [notFound; okReply "hi"]) notFound [Responded (okReply "hi")]
              eq_refl Hne) as (Hkept & _ & Hretry).
  split; [split; [reflexivity|exact Hne]|]. split; [exact Hkept|].
  exact (proj1 (Hretry eq_refl eq_refl)).
Defined.

(** A success status with an HTML page as body. *)
Lemma parse_failure_throws_without_body_prefix_witness :
  let w := online [htmlPage] in
  (wire w = [Responded htmlPage] /\ ok htmlPage = true
   /\ JSONText.parse (body htmlPage) = None)
  /\ fst (Askit.queryGemini JSONText.parse "gemini-2.5-flash" "hello" "KEY" w)
     = Throw TypeErrorNotAConstructor
  /\ fst (Askit.queryGemini JSONText.parse "gemini-2.5-flash" "hello" "KEY" w)
     <> Throw (Error "Failed to parse Gemini response: <html>Service page</html>...")
  /\ fst (Termigpt.queryGemini JSONText.parse "gemini-2.0-flash" "hello" "KEY" w)
     = Throw SyntaxErrorJSON.
Proof.
  cbv zeta. split; [repeat split|].
  destruct (parse_failure_throws_without_body_prefix JSONText.parse "gemini-2.5-flash"
              "hello" "KEY" (online [htmlPage]) htmlPage [] eq_refl eq_refl eq_refl)
    as (Hthrown & Hnot & _).
  split; [exact Hthrown|]. split; [exact Hnot|].
  exact (proj2 (proj2 (parse_failure_throws_without_body_prefix JSONText.parse
                         "gemini-2.0-flash" "hello" "KEY" (online [htmlPage]) htmlPage []
                         eq_refl eq_refl eq_refl))).
Defined.

(** An empty object as body, and a body with the whole path. *)
Lemma extraction_returns_text_or_placeholder_witness :
  (wire (online [emptyReply]) = [Responded emptyReply] /\ ok emptyReply = true
   /\ JSONText.parse (body emptyReply) = Some (JObject [])
   /\ missing (firstCandidate (JObject [])))
  /\ fst (Askit.queryGemini JSONText.parse "gemini-2.5-flash" "hello" "KEY" (online [emptyReply]))
     = Return (JString Askit.noTextPlaceholder)
  /\ fst (Termigpt.queryGemini JSONText.parse "gemini-2.0-flash" "hello" "KEY" (online [emptyReply]))
     = Return (JString "(no response)")
  /\ (JSONText.parse (body (okReply "hi")) = Some (replyData "hi")
      /\ textOf (firstPart (contentOf (firstCandidate (replyData "hi")))) = JString "hi"
      /\ "hi" <> "")
  /\ fst (Askit.queryGemini JSONText.parse "gemini-2.5-flash" "hello" "KEY" (online [okReply "hi"]))
     = Return (JString "hi")
  /\ fst (Termigpt.queryGemini JSONText.parse "gemini-2.0-flash" "hello" "KEY" (online [okReply "hi"]))
     = Return (JString "hi").
Proof.
  assert (Hmiss : missing (firstCandidate (JObject []))) by (left; reflexivity).
  assert (Hhi : "hi" <> "") by discriminate.
  split; [repeat split; exact Hmiss|].
  split; [exact (proj1 (proj1 (extraction_returns_text_or_placeholder JSONText.parse
            "gemini-2.5-flash" "hello" "KEY" (online [emptyReply]) emptyReply [] (JObject [])
            eq_refl eq_refl eq_refl) (or_introl Hmiss)))|].
  split; [exact (proj2 (proj1 (extraction_returns_text_or_placeholder JSONText.parse
            "gemini-2.0-flash" "hello" "KEY" (online [emptyReply]) emptyReply [] (JObject [])
            eq_refl eq_refl eq_refl) (or_introl Hmiss)))|].
  split; [repeat split; exact Hhi|].
  split.
  - exact (proj1 (proj2 (extraction_returns_text_or_placeholder JSONText.parse
            "gemini-2.5-flash" "hello" "KEY" (online [okReply "hi"]) (okReply "hi") []
            (replyData "hi") eq_refl eq_refl eq_refl) "hi" eq_refl Hhi)).
  - exact (proj2 (proj2 (extraction_returns_text_or_placeholder JSONText.parse
            "gemini-2.0-flash" "hello" "KEY" (online [okReply "hi"]) (okReply "hi") []
            (replyData "hi") eq_refl eq_refl eq_refl) "hi" eq_refl Hhi)).
Defined.

(** Two questions, then the clear command typed between spaces; and the
    clear command on a session that holds another context. *)
Lemma clear_restores_initial_context_witness :
  let w := online [okReply "one"; okReply "two"] in
  let dispatcher := Askit.queryGemini JSONText.parse in
  let lines := ["first question"; "   "; "second question"] in
  let s1 := fst (Chat.onLines dispatcher session lines (write Prompt w)) in
  let w1 := snd (Chat.onLines dispatcher session lines (write Prompt w)) in
  let held := mkSession "default" false "gemini-2.5-flash" "KEY"
                (loadPersonalities JSONText.parse None)
                "A context that holds earlier turns." false in
  (chatMode JSONText.parse "default" false "gemini-2.5-flash" "KEY" None w
   = (Return session, write Prompt w)
   /\ trim "  :clear " = ":clear")
  /\ buildSystemPrompt "default" (loadPersonalities JSONText.parse None)
     = Return defaultContext
  /\ context (fst (Chat.onLine dispatcher s1 "  :clear " w1)) = defaultContext
  /\ sent (snd (Chat.onLine dispatcher s1 "  :clear " w1)) = sent w1
  /\ List.length (sent w1) = 2
  /\ (context held <> defaultContext
      /\ Chat.onLine dispatcher held "  :clear " w
         = (session, write Prompt (write ContextCleared w))).
Proof.
  cbv zeta.
  destruct (clear_restores_initial_context JSONText.parse (Askit.queryGemini JSONText.parse)
              "default" false "gemini-2.5-flash" "KEY" None
              (online [okReply "one"; okReply "two"]) session
              (write Prompt (online [okReply "one"; okReply "two"]))
              ["first question"; "   "; "second question"] "  :clear "
              eq_refl eq_refl) as (Hbuilt & Hctx & Hsent & _ & _ & Hreset).
  split; [split; reflexivity|]. split; [exact Hbuilt|].
  split; [exact Hctx|]. split; [exact Hsent|]. split; [reflexivity|].
  split; [vm_compute; discriminate|].
  exact (Hreset (mkSession "default" false "gemini-2.5-flash" "KEY"
                   (loadPersonalities JSONText.parse None)
                   "A context that holds earlier turns." false)
                (online [okReply "one"; okReply "two"]) eq_refl eq_refl eq_refl).
Defined.

(** Two questions in a row: the second request carries the second one
    only, and the text of the first is nowhere in it. *)
Lemma second_prompt_holds_second_turn_only_witness :
  let w := online [okReply "one"; okReply "two"] in
  let askit := Chat.onLine (Askit.queryGemini JSONText.parse) in
  let s1 := fst (askit session "first question" w) in
  let w1 := snd (askit session "first question" w) in
  let prompt2 := defaultContext ++ LF ++ "User: second question" in
  (closed session = false
   /\ dispatchable "first question"
   /\ dispatchable "second question")
  /\ context s1 = defaultContext
  /\ nth_error (issued w1 (snd (askit s1 "second question" w1))) 0
     = Some (requestFor "gemini-2.5-flash" prompt2 "KEY")
  /\ includes prompt2 "first question" = false.
Proof.
  cbv zeta.
  assert (H1 : dispatchable "first question") by (repeat split; differ).
  assert (H2 : dispatchable "second question") by (repeat split; differ).
  destruct (second_prompt_holds_second_turn_only JSONText.parse session
              "first question" "second question"
              (online [okReply "one"; okReply "two"]) eq_refl H1 H2)
    as [[Hctx Hsecond] _].
  split; [split; [reflexivity|split; assumption]|].
  split; [exact Hctx|]. split; [exact Hsecond|]. reflexivity.
Defined.

(** One exchange in the full-screen front end, then an interrupt: the
    message list holds the exchange, the file written is empty. *)
Example shutdown_after_one_exchange :
  let ui := fst (drive JSONText.parse "KEY" [Typed "hi"; Submitted] InkUI.mount
                   (online [okReply "yo"])) in
  InkUI.messages ui
  = [InkUI.mkMessage "user" (JString "hi"); InkUI.mkMessage "assistant" (JString "yo")]
  /\ InkUI.transcript (InkUI.messages ui)
     = Return ("user: hi" ++ LF ++ LF ++ "assistant: yo")
  /\ InkUI.interrupt 1700000000000 1700000000007 ui []
     = Return (InkUI.exit ui, [("ui_chat_1700000000000.txt", EmptyString)]).
Proof. cbv zeta. repeat split. Qed.

(** The prompt of a style the mapping knows, and of one nobody defines. *)
Example prompt_of_hacker_style :
  buildSystemPrompt "hacker" (loadPersonalities JSONText.parse None)
  = Return ("You're a cool, terse, command-line-loving hacker mentor. Prefer shell snippets and minimal prose."
            ++ promptRules).
Proof. reflexivity. Qed.

Example prompt_of_unknown_style :
  buildSystemPrompt "pirate" (loadPersonalities JSONText.parse None)
  = Return defaultContext.
Proof. reflexivity. Qed.

End Runs.

(* ===================================================================== *)
(** ** Resolving the API key *)
(* ===================================================================== *)

Section KeyResolution.
Import JS Credentials Notions.

Lemma trimEnd_cons c rest :
  trimEnd (String c rest)
  = match trimEnd rest with
    | EmptyString => if isSpace c then EmptyString else String c EmptyString
    | kept => String c kept
    end.
Proof. reflexivity. Qed.

Lemma trimEnd_trimEnd s : trimEnd (trimEnd s) = trimEnd s.
Proof.
  induction s as [|c rest IH]; [reflexivity|].
  rewrite trimEnd_cons. destruct (trimEnd rest) as [|d kept] eqn:E.
  - destruct (isSpace c) eqn:Hc; [reflexivity|].
    rewrite trimEnd_cons. cbn [trimEnd]. rewrite Hc. reflexivity.
  - rewrite trimEnd_cons, IH. reflexivity.
Qed.

Lemma trimStart_head s :
  trimStart s = "" \/ exists c rest, trimStart s = String c rest /\ isSpace c = false.
Proof.
  induction s as [|c rest IH]; [left; reflexivity|].
  cbn [trimStart]. destruct (isSpace c) eqn:Hc; [exact IH|].
  right. exists c, rest. split; [reflexivity|exact Hc].
Qed.

Lemma trimEnd_head c rest :
  isSpace c = false -> exists kept, trimEnd (String c rest) = String c kept.
Proof.
  intros Hc. rewrite trimEnd_cons. destruct (trimEnd rest) as [|d kept].
  - rewrite Hc. exists "". reflexivity.
  - exists (String d kept). reflexivity.
Qed.

(** [trim] leaves a trimmed string as it is. *)
Lemma trim_trim s : trim (trim s) = trim s.
Proof.
  unfold trim. destruct (trimStart_head s) as [H|(c & rest & H & Hc)]; rewrite H.
  - reflexivity.
  - destruct (trimEnd_head c rest Hc) as [kept Hk].
    rewrite Hk at 1. cbn [trimStart]. rewrite Hc, <- Hk. apply trimEnd_trimEnd.
Qed.

Lemma keyOfEnvironment_blank host :
  blank (envKey host) -> keyOfEnvironment host = None.
Proof.
  unfold blank, keyOfEnvironment. destruct (envKey host) as [value|]; [|reflexivity].
  intros H. rewrite H. cbn. rewrite andb_false_r. reflexivity.
Qed.

Lemma keyOfConfig_blank host :
  blank (configFile host) -> keyOfConfig host = None.
Proof.
  unfold blank, keyOfConfig. destruct (configFile host) as [content|]; [|reflexivity].
  intros H. rewrite H. reflexivity.
Qed.

Lemma keyOfEnvironment_trimmed host key :
  keyOfEnvironment host = Some key -> key <> "" /\ trim key = key.
Proof.
  unfold keyOfEnvironment. destruct (envKey host) as [value|]; [|discriminate].
  destruct (value =? ""); cbn [negb andb]; [discriminate|].
  destruct (trim value =? "") eqn:E; cbn [negb]; [discriminate|].
  intros H. inversion H. split; [apply String.eqb_neq; exact E|apply trim_trim].
Qed.

Lemma keyOfConfig_trimmed host key :
  keyOfConfig host = Some key -> key <> "" /\ trim key = key.
Proof.
  unfold keyOfConfig. destruct (configFile host) as [content|]; [|discriminate].
  destruct (trim content =? "") eqn:E; cbn [negb]; [discriminate|].
  intros H. inversion H. split; [apply String.eqb_neq; exact E|apply trim_trim].
Qed.

Lemma keyOfUser_entered guarded host :
  trim (typed host) <> "" ->
  keyOfUser guarded host
  = if configWritable host
    then mkKeyRun (KeyResolved (trim (typed host))) (Some (trim (typed host))) true true
    else if guarded
         then mkKeyRun (KeyResolved (trim (typed host))) (configFile host) true false
         else mkKeyRun ConfigWriteFailed (configFile host) true false.
Proof.
  intros H. unfold keyOfUser, promptHidden.
  apply String.eqb_neq in H. rewrite H. reflexivity.
Qed.

(** X1. Whatever the source, a key that [getAPIKey] resolves is not empty
    and has no white space around it. *)
Theorem resolved_key_is_trimmed (guarded : bool) (host : Host) (key : string) :
  outcome (getAPIKey guarded host) = KeyResolved key ->
  key <> "" /\ trim key = key.
Proof.
  unfold getAPIKey.
  destruct (keyOfEnvironment host) as [k|] eqn:Eenv.
  - cbn [outcome]. intros H. inversion H. subst k.
    exact (keyOfEnvironment_trimmed host key Eenv).
  - destruct (keyOfConfig host) as [k|] eqn:Ecfg.
    + cbn [outcome]. intros H. inversion H. subst k.
      exact (keyOfConfig_trimmed host key Ecfg).
    + unfold keyOfUser, promptHidden.
      destruct (trim (typed host) =? "") eqn:E; cbn [outcome]; [discriminate|].
      destruct (configWritable host); cbn [outcome].
      * intros H. inversion H. split; [apply String.eqb_neq; exact E|apply trim_trim].
      * destruct guarded; cbn [outcome]; [|discriminate].
        intros H. inversion H. split; [apply String.eqb_neq; exact E|apply trim_trim].
Qed.

Lemma resolved_key_is_trimmed_witness :
  outcome (getAPIKey true (mkHost (Some "  abc123 ") (Some "other") true "typed"))
  = KeyResolved "abc123"
  /\ "abc123" <> "" /\ trim "abc123" = "abc123".
Proof.
  split; [reflexivity|].
  exact (resolved_key_is_trimmed true (mkHost (Some "  abc123 ") (Some "other") true "typed")
           "abc123" eq_refl).
Defined.

(** X2. An environment variable that is set to more than white space wins:
    its trimmed value is the key, whatever the saved file holds; the user is
    not asked and the file is left as it is. *)
Theorem environment_key_wins (guarded : bool) (host : Host) (value : string) :
  envKey host = Some value ->
  trim value <> "" ->
  getAPIKey guarded host = mkKeyRun (KeyResolved (trim value)) (configFile host) false false.
Proof.
  intros Henv Hvalue. unfold getAPIKey, keyOfEnvironment. rewrite Henv.
  assert (Hne : value <> "") by (intros E; subst value; apply Hvalue; reflexivity).
  apply String.eqb_neq in Hne, Hvalue. rewrite Hne, Hvalue. reflexivity.
Qed.

Lemma environment_key_wins_witness :
  (envKey (mkHost (Some " env-key ") (Some "file-key") false "typed-key") = Some " env-key "
   /\ trim " env-key " <> "")
  /\ getAPIKey false (mkHost (Some " env-key ") (Some "file-key") false "typed-key")
     = mkKeyRun (KeyResolved "env-key") (Some "file-key") false false.
Proof.
  assert (H : trim " env-key " <> "") by (vm_compute; discriminate).
  split; [split; [reflexivity|exact H]|].
  exact (environment_key_wins false
           (mkHost (Some " env-key ") (Some "file-key") false "typed-key") " env-key "
           eq_refl H).
Defined.

(** X3. Round trip of an entered key.  When neither the environment nor the
    saved file gives a key and the file can be written, the trimmed entry is
    the key and becomes the content of the file; a later run that finds this
    file and no key in its environment resolves the same key without asking,
    whichever command line it is. *)
Theorem entered_key_round_trip (guarded : bool) (host : Host) :
  blank (envKey host) ->
  blank (configFile host) ->
  trim (typed host) <> "" ->
  configWritable host = true ->
  let first := getAPIKey guarded host in
  first = mkKeyRun (KeyResolved (trim (typed host))) (Some (trim (typed host))) true true
  /\ (forall guarded' env' writable' typed',
        blank env' ->
        getAPIKey guarded' (mkHost env' (configAfter first) writable' typed')
        = mkKeyRun (KeyResolved (trim (typed host))) (configAfter first) false false).
Proof.
  intros Henv Hcfg Htyped Hw. cbv zeta.
  assert (Hfirst : getAPIKey guarded host
                   = mkKeyRun (KeyResolved (trim (typed host)))
                              (Some (trim (typed host))) true true).
  { unfold getAPIKey. rewrite (keyOfEnvironment_blank host Henv), (keyOfConfig_blank host Hcfg).
    rewrite (keyOfUser_entered guarded host Htyped), Hw. reflexivity. }
  split; [exact Hfirst|].
  intros guarded' env' writable' typed' Henv'. rewrite Hfirst. cbn [configAfter].
  unfold getAPIKey. rewrite keyOfEnvironment_blank by exact Henv'.
  unfold keyOfConfig. cbn [configFile]. rewrite trim_trim.
  apply String.eqb_neq in Htyped. rewrite Htyped. reflexivity.
Qed.

Lemma entered_key_round_trip_witness :
  let host := mkHost (Some "   ") None true " my-key " in
  (blank (envKey host) /\ blank (configFile host)
   /\ trim (typed host) <> "" /\ configWritable host = true)
  /\ getAPIKey true host = mkKeyRun (KeyResolved "my-key") (Some "my-key") true true
  /\ getAPIKey false (mkHost None (Some "my-key") false "")
     = mkKeyRun (KeyResolved "my-key") (Some "my-key") false false.
Proof.
  cbv zeta.
  assert (H : trim " my-key " <> "") by (vm_compute; discriminate).
  destruct (entered_key_round_trip true (mkHost (Some "   ") None true " my-key ")
              eq_refl I H eq_refl) as [Hfirst Hlater].
  split; [split; [reflexivity|split; [exact I|split; [exact H|reflexivity]]]|].
  split; [exact Hfirst|].
  exact (Hlater false None false "" I).
Defined.

(** X4. When the environment, the saved file and the entry are all blank,
    [getAPIKey] throws after asking once, and writes nothing. *)
Theorem no_key_anywhere (guarded : bool) (host : Host) :
  blank (envKey host) ->
  blank (configFile host) ->
  trim (typed host) = "" ->
  getAPIKey guarded host = mkKeyRun NoKeyProvided (configFile host) true false.
Proof.
  intros Henv Hcfg Htyped. unfold getAPIKey.
  rewrite (keyOfEnvironment_blank host Henv), (keyOfConfig_blank host Hcfg).
  unfold keyOfUser, promptHidden. rewrite Htyped. reflexivity.
Qed.

Lemma no_key_anywhere_witness :
  let host := mkHost (Some "") (Some "  ") true "   " in
  (blank (envKey host) /\ blank (configFile host) /\ trim (typed host) = "")
  /\ getAPIKey true host = mkKeyRun NoKeyProvided (Some "  ") true false.
Proof.
  cbv zeta. split; [repeat split|].
  exact (no_key_anywhere true (mkHost (Some "") (Some "  ") true "   ")
           eq_refl eq_refl eq_refl).
Defined.

(** X5. When the entered key cannot be saved, AskIt still resolves it for
    the session, without announcing a save; TermiGPT ends with the error of
    the write.  The file is unchanged in both. *)
Theorem unsaved_entry (host : Host) :
  blank (envKey host) ->
  blank (configFile host) ->
  trim (typed host) <> "" ->
  configWritable host = false ->
  getAPIKey true host
  = mkKeyRun (KeyResolved (trim (typed host))) (configFile host) true false
  /\ getAPIKey false host = mkKeyRun ConfigWriteFailed (configFile host) true false.
Proof.
  intros Henv Hcfg Htyped Hw. unfold getAPIKey.
  rewrite (keyOfEnvironment_blank host Henv), (keyOfConfig_blank host Hcfg).
  rewrite !(keyOfUser_entered _ host Htyped), Hw. split; reflexivity.
Qed.

Lemma unsaved_entry_witness :
  let host := mkHost None None false "my-key" in
  (blank (envKey host) /\ blank (configFile host)
   /\ trim (typed host) <> "" /\ configWritable host = false)
  /\ getAPIKey true host = mkKeyRun (KeyResolved "my-key") None true false
  /\ getAPIKey false host = mkKeyRun ConfigWriteFailed None true false.
Proof.
  cbv zeta.
  assert (H : trim "my-key" <> "") by (vm_compute; discriminate).
  split; [split; [exact I|split; [exact I|split; [exact H|reflexivity]]]|].
  exact (unsaved_entry (mkHost None None false "my-key") I I H eq_refl).
Defined.

End KeyResolution.

(* ===================================================================== *)
(** ** More on the three dispatchers *)
(* ===================================================================== *)

Section Dispatchers.
Import JS IO Observe Samples Inputs.

Variable JSON_parse : string -> option JSValue.

Lemma currentModel_cases model :
  Askit.currentModel model = "gemini-2.5-pro" \/ Askit.currentModel model = model.
Proof.
  unfold Askit.currentModel.
  destruct (negb (toLowerCase model =? Askit.STABLE_FALLBACK_MODEL)); [|right; reflexivity].
  destruct (includes (toLowerCase model) "pro" && negb (includes (toLowerCase model) "2.5"));
    [left|right]; reflexivity.
Qed.

(** X6. Correcting a model name is stable: a corrected name is not corrected
    again, and the correction yields the stable fallback name only for the
    stable fallback name itself. *)
Theorem correction_is_stable (model : string) :
  Askit.currentModel (Askit.currentModel model) = Askit.currentModel model
  /\ (Askit.currentModel model = Askit.STABLE_FALLBACK_MODEL ->
      model = Askit.STABLE_FALLBACK_MODEL).
Proof.
  destruct (currentModel_cases model) as [H|H]; rewrite H; split.
  - reflexivity.
  - discriminate.
  - exact H.
  - intros E. exact E.
Qed.

Lemma correction_is_stable_witness :
  Askit.currentModel "Gemini-Pro-Vision" = "gemini-2.5-pro"
  /\ Askit.currentModel (Askit.currentModel "Gemini-Pro-Vision") = "gemini-2.5-pro"
  /\ (Askit.currentModel "gemini-2.5-flash" = Askit.STABLE_FALLBACK_MODEL
      /\ "gemini-2.5-flash" = Askit.STABLE_FALLBACK_MODEL).
Proof.
  split; [reflexivity|]. split.
  - exact (proj1 (correction_is_stable "Gemini-Pro-Vision")).
  - split; [reflexivity|].
    exact (proj2 (correction_is_stable "gemini-2.5-flash") eq_refl).
Defined.

Lemma or_else_truthy v placeholder :
  truthy placeholder = true -> truthy (or_else v placeholder) = true.
Proof. intros H. unfold or_else. destruct (truthy v) eqn:E; [exact E|exact H]. Qed.

Lemma conclude_truthy res v :
  conclude JSON_parse res = Return v -> truthy v = true.
Proof.
  unfold conclude. destruct (negb (ok res)); [discriminate|].
  destruct (JSON_parse (body res)); [|discriminate].
  intros H. inversion H. apply or_else_truthy. reflexivity.
Qed.

(** What a dispatch of AskIt completes with. *)
Lemma askit_completion model prompt apiKey w :
  fst (Askit.queryGemini JSON_parse model prompt apiKey w) = Throw FetchError
  \/ exists res, fst (Askit.queryGemini JSON_parse model prompt apiKey w)
                 = conclude JSON_parse res.
Proof.
  rewrite queryGemini_step. destruct (fetch _ w) as [[res|] w1]; [|left; reflexivity].
  destruct (negb (ok res) && (status res =? 404)%nat
            && negb (Askit.currentModel model =? Askit.STABLE_FALLBACK_MODEL)).
  - rewrite queryGemini_fallback.
    destruct (fetch _ (write _ w1)) as [[res2|] w2]; [right; exists res2|left]; reflexivity.
  - right. exists res. reflexivity.
Qed.

(** X7. A reply that a dispatcher returns is never falsy: not the empty
    string, not [null], not [undefined].  This holds for the dispatchers of
    AskIt, of TermiGPT and of the full-screen front end. *)
Theorem returned_reply_is_truthy
  (model prompt apiKey : string) (w : World) (v : JSValue) :
  fst (Askit.queryGemini JSON_parse model prompt apiKey w) = Return v
  \/ fst (Termigpt.queryGemini JSON_parse model prompt apiKey w) = Return v
  \/ fst (InkUI.queryGemini JSON_parse apiKey prompt w) = Return v ->
  truthy v = true.
Proof.
  intros [H|[H|H]].
  - destruct (askit_completion model prompt apiKey w) as [E|[res E]]; rewrite E in H.
    + discriminate.
    + exact (conclude_truthy res v H).
  - unfold Termigpt.queryGemini in H.
    destruct (fetch _ w) as [[res|] w1]; [|discriminate].
    destruct (negb (ok res)); [discriminate|].
    destruct (JSON_parse (body res)); [|discriminate].
    cbn [fst] in H. inversion H. apply or_else_truthy. reflexivity.
  - unfold InkUI.queryGemini in H.
    destruct (fetch _ w) as [[res|] w1]; [|discriminate].
    destruct (JSON_parse (body res)); [|discriminate].
    cbn [fst] in H. inversion H. apply or_else_truthy. reflexivity.
Qed.

(** X8. When the retry with the stable fallback name is itself answered
    without success, 404 included, the dispatch throws the RemoteError of
    that second response after the two requests; the notice written before
    the retry names the model as it was requested, not as corrected. *)
Theorem failed_retry_is_final
  (model prompt apiKey : string) (w : World) (res res2 : Response) (rest : list Outcome) :
  wire w = Responded res :: Responded res2 :: rest ->
  Askit.currentModel model <> Askit.STABLE_FALLBACK_MODEL ->
  status res = 404 ->
  ok res2 = false ->
  Askit.queryGemini JSON_parse model prompt apiKey w
  = (Throw (RemoteError res2),
     mkWorld rest
       (sent w ++ [requestFor (Askit.currentModel model) prompt apiKey;
                   requestFor Askit.STABLE_FALLBACK_MODEL prompt apiKey])
       (terminal w ++ [FallbackNotice model]) (logged w)).
Proof.
  intros Hw Hne H404 Hok2.
  rewrite (queryGemini_retry JSON_parse model prompt apiKey w res _ Hw Hne H404).
  rewrite (queryGemini_final JSON_parse Askit.STABLE_FALLBACK_MODEL prompt apiKey _ res2 rest).
  - unfold conclude. rewrite Hok2. cbn [negb write sent terminal logged wire].
    rewrite <- app_assoc. reflexivity.
  - reflexivity.
  - right. right. reflexivity.
Qed.

(** X9. When the network rejects the request, AskIt and TermiGPT throw what
    [fetch] rejected with after that one request: nothing is retried and
    nothing is written to the terminal. *)
Theorem rejected_request_is_final
  (model prompt apiKey : string) (w : World) (rest : list Outcome) :
  wire w = Rejected :: rest ->
  Askit.queryGemini JSON_parse model prompt apiKey w
  = (Throw FetchError,
     mkWorld rest (sent w ++ [requestFor (Askit.currentModel model) prompt apiKey])
             (terminal w) (logged w))
  /\ Termigpt.queryGemini JSON_parse model prompt apiKey w
     = (Throw FetchError,
        mkWorld rest (sent w ++ [requestFor model prompt apiKey]) (terminal w) (logged w)).
Proof.
  intros Hw. split.
  - rewrite queryGemini_step. unfold fetch. rewrite Hw. reflexivity.
  - unfold Termigpt.queryGemini, fetch. rewrite Hw. reflexivity.
Qed.

(** X10. TermiGPT sends exactly one request, to the model name as given,
    whatever the name and whatever the answer; a response without success
    status, 404 included, throws the RemoteError. *)
Theorem termigpt_single_attempt (model prompt apiKey : string) (w : World) :
  issued w (snd (Termigpt.queryGemini JSON_parse model prompt apiKey w))
  = [requestFor model prompt apiKey]
  /\ (forall res rest,
        wire w = Responded res :: rest ->
        ok res = false ->
        Termigpt.queryGemini JSON_parse model prompt apiKey w
        = (Throw (RemoteError res),
           mkWorld rest (sent w ++ [requestFor model prompt apiKey])
                   (terminal w) (logged w))).
Proof.
  split; [apply issued_termigpt|].
  intros res rest Hw Hok. unfold Termigpt.queryGemini.
  rewrite (fetch_responded _ _ _ _ Hw), Hok. reflexivity.
Qed.

(** X11. The dispatcher of the full-screen front end does not look at the
    status: two responses with the same body give the same result, and a
    body that parses but holds no first candidate, such as the error object
    of a 404, is answered with [(no response)], not with an error. *)
Theorem ink_dispatcher_ignores_status
  (apiKey prompt : string) (w w' : World) (res res' : Response) (rest rest' : list Outcome) :
  wire w = Responded res :: rest ->
  wire w' = Responded res' :: rest' ->
  body res = body res' ->
  fst (InkUI.queryGemini JSON_parse apiKey prompt w)
  = fst (InkUI.queryGemini JSON_parse apiKey prompt w')
  /\ (forall data,
        JSON_parse (body res) = Some data ->
        missing (firstCandidate data) ->
        fst (InkUI.queryGemini JSON_parse apiKey prompt w) = Return (JString "(no response)"))
  /\ issued w (snd (InkUI.queryGemini JSON_parse apiKey prompt w))
     = [requestFor "gemini-2.0-flash" prompt apiKey].
Proof.
  intros Hw Hw' Hbody. unfold InkUI.queryGemini.
  rewrite (fetch_responded _ _ _ _ Hw), (fetch_responded _ _ _ _ Hw'), Hbody.
  split; [destruct (JSON_parse (body res')); reflexivity|]. split.
  - intros data Hparse Hmiss. rewrite Hparse. cbn [fst].
    unfold or_else.
    rewrite (missing_link_falsy data (or_introl Hmiss)). reflexivity.
  - destruct (JSON_parse (body res')); cbn [snd]; apply issued_app; reflexivity.
Qed.

End Dispatchers.

Section DispatcherRuns.
Import JS IO Observe Samples Inputs.

Lemma returned_reply_is_truthy_witness :
  fst (Termigpt.queryGemini JSONText.parse "gemini-2.0-flash" "hello" "KEY"
         (online [okWithError]))
  = Return (JString "(no response)")
  /\ truthy (JString "(no response)") = true.
Proof.
  split; [reflexivity|].
  exact (returned_reply_is_truthy JSONText.parse "gemini-2.0-flash" "hello" "KEY"
           (online [okWithError]) (JString "(no response)") (or_intror (or_introl eq_refl))).
Defined.

Lemma failed_retry_is_final_witness :
  let w := online [notFound; notFoundJSON; okReply "late"] in
  (wire w = Responded notFound :: Responded notFoundJSON :: [Responded (okReply "late")]
   /\ Askit.currentModel "gemini-pro" <> Askit.STABLE_FALLBACK_MODEL
   /\ status notFound = 404 /\ ok notFoundJSON = false)
  /\ Askit.queryGemini JSONText.parse "gemini-pro" "hello" "KEY" w
     = (Throw (RemoteError notFoundJSON),
        mkWorld [Responded (okReply "late")]
          [requestFor "gemini-2.5-pro" "hello" "KEY"; requestFor "gemini-2.5-flash" "hello" "KEY"]
          [FallbackNotice "gemini-pro"] []).
Proof.
  cbv zeta.
  assert (Hne : Askit.currentModel "gemini-pro" <> Askit.STABLE_FALLBACK_MODEL)
    by (vm_compute; discriminate).
  split; [split; [reflexivity|split; [exact Hne|split; reflexivity]]|].
  exact (failed_retry_is_final JSONText.parse "gemini-pro" "hello" "KEY"
           (online [notFound; notFoundJSON; okReply "late"]) notFound notFoundJSON
           [Responded (okReply "late")] eq_refl Hne eq_refl eq_refl).
Defined.

Lemma rejected_request_is_final_witness :
  let w := network [Rejected; Responded (okReply "late")] in
  wire w = Rejected :: [Responded (okReply "late")]
  /\ Askit.queryGemini JSONText.parse "gemini-pro" "hello" "KEY" w
     = (Throw FetchError,
        mkWorld [Responded (okReply "late")] [requestFor "gemini-2.5-pro" "hello" "KEY"] [] [])
  /\ Termigpt.queryGemini JSONText.parse "gemini-pro" "hello" "KEY" w
     = (Throw FetchError,
        mkWorld [Responded (okReply "late")] [requestFor "gemini-pro" "hello" "KEY"] [] []).
Proof.
  cbv zeta. split; [reflexivity|].
  exact (rejected_request_is_final JSONText.parse "gemini-pro" "hello" "KEY"
           (network [Rejected; Responded (okReply "late")]) [Responded (okReply "late")]
           eq_refl).
Defined.

Lemma termigpt_single_attempt_witness :
  let w := online [notFound; okReply "late"] in
  (wire w = Responded notFound :: [Responded (okReply "late")] /\ ok notFound = false)
  /\ Termigpt.queryGemini JSONText.parse "gemini-pro" "hello" "KEY" w
     = (Throw (RemoteError notFound),
        mkWorld [Responded (okReply "late")] [requestFor "gemini-pro" "hello" "KEY"] [] []).
Proof.
  cbv zeta. split; [split; reflexivity|].
  exact (proj2 (termigpt_single_attempt JSONText.parse "gemini-pro" "hello" "KEY"
                  (online [notFound; okReply "late"]))
               notFound [Responded (okReply "late")] eq_refl eq_refl).
Defined.

Lemma ink_dispatcher_ignores_status_witness :
  (wire (online [notFoundJSON]) = [Responded notFoundJSON]
   /\ wire (online [okWithError]) = [Responded okWithError]
   /\ body notFoundJSON = body okWithError
   /\ JSONText.parse (body notFoundJSON) = Some errorData
   /\ missing (firstCandidate errorData))
  /\ fst (InkUI.queryGemini JSONText.parse "KEY" "hello" (online [notFoundJSON]))
     = fst (InkUI.queryGemini JSONText.parse "KEY" "hello" (online [okWithError]))
  /\ fst (InkUI.queryGemini JSONText.parse "KEY" "hello" (online [notFoundJSON]))
     = Return (JString "(no response)").
Proof.
  assert (Hmiss : missing (firstCandidate errorData)) by (left; reflexivity).
  destruct (ink_dispatcher_ignores_status JSONText.parse "KEY" "hello"
              (online [notFoundJSON]) (online [okWithError]) notFoundJSON okWithError [] []
              eq_refl eq_refl eq_refl) as (Hsame & Hplace & _).
  split; [repeat split; exact Hmiss|].
  split; [exact Hsame|].
  exact (Hplace errorData eq_refl Hmiss).
Defined.

End DispatcherRuns.

(* ===================================================================== *)
(** ** More on personas *)
(* ===================================================================== *)

Section PersonaMerge.
Import JS IO Persona Inputs.

Variable JSON_parse : string -> option JSValue.

(** X12. Merging the user file: for every name, the merged mapping holds
    what the object of the user file binds it to, and otherwise what the
    built-in personas bind it to. *)
Theorem user_personas_override (content : string) (props : list (string * JSValue))
  (name : string) :
  JSON_parse content = Some (JObject props) ->
  assoc name (loadPersonalities JSON_parse (Some content))
  = match assoc name props with
    | Some value => Some value
    | None => assoc name DEFAULT_PERSONALITIES
    end.
Proof.
  intros Hparse. unfold loadPersonalities. rewrite Hparse.
  unfold spread. cbn [ownEnumerable]. rewrite assoc_app, app_nil_r. reflexivity.
Qed.


(** X13. A user file that is missing, that does not parse, or that parses to
    a value without properties of its own ([null], a number, a boolean, an
    empty object, array or string) leaves exactly the built-in personas. *)
Theorem unusable_user_file_is_ignored (userFile : option string) :
  userFile = None
  \/ (exists content, userFile = Some content /\ JSON_parse content = None)
  \/ (exists content value,
        userFile = Some content /\ JSON_parse content = Some value
        /\ ownEnumerable value = []) ->
  loadPersonalities JSON_parse userFile = DEFAULT_PERSONALITIES.
Proof.
  intros [H|[(content & H & Hparse)|(content & value & H & Hparse & Hown)]];
    subst userFile; unfold loadPersonalities.
  - reflexivity.
  - rewrite Hparse. reflexivity.
  - rewrite Hparse. unfold spread at 1. rewrite Hown. reflexivity.
Qed.


End PersonaMerge.

Section PersonaFallback.
Import JS IO Persona Inputs.

Lemma user_personas_override_witness :
  JSONText.parse userPersonas = Some userPersonasData
  /\ assoc "pirate" (loadPersonalities JSONText.parse (Some userPersonas))
     = Some (JString "You are a pirate.")
  /\ assoc "hacker" (loadPersonalities JSONText.parse (Some userPersonas))
     = Some (JString "")
  /\ assoc "teacher" (loadPersonalities JSONText.parse (Some userPersonas))
     = assoc "teacher" DEFAULT_PERSONALITIES.
Proof.
  split; [reflexivity|]. split; [|split].
  - exact (user_personas_override JSONText.parse userPersonas _ "pirate" eq_refl).
  - exact (user_personas_override JSONText.parse userPersonas _ "hacker" eq_refl).
  - exact (user_personas_override JSONText.parse userPersonas _ "teacher" eq_refl).
Defined.

Lemma unusable_user_file_is_ignored_witness :
  (JSONText.parse "{ not json" = None /\ JSONText.parse "null" = Some JNull
   /\ ownEnumerable JNull = [])
  /\ loadPersonalities JSONText.parse (Some "{ not json") = DEFAULT_PERSONALITIES
  /\ loadPersonalities JSONText.parse (Some "null") = DEFAULT_PERSONALITIES.
Proof.
  split; [repeat split|]. split.
  - exact (unusable_user_file_is_ignored JSONText.parse (Some "{ not json")
             (or_intror (or_introl (ex_intro _ "{ not json" (conj eq_refl eq_refl))))).
  - exact (unusable_user_file_is_ignored JSONText.parse (Some "null")
             (or_intror (or_intror
                (ex_intro _ "null" (ex_intro _ JNull (conj eq_refl (conj eq_refl eq_refl))))))).
Defined.

(** X14. A style that the mapping binds to a falsy value, such as the empty
    text or [null], gets the prompt of [default]: a user file cannot blank a
    persona, it can only make it fall back. *)
Theorem falsy_persona_uses_default
  (style : string) (personalities : list (string * JSValue)) (value : JSValue) :
  assoc style personalities = Some value ->
  truthy value = false ->
  buildSystemPrompt style personalities = buildSystemPrompt "default" personalities.
Proof.
  intros Hown Hfalsy. unfold buildSystemPrompt.
  replace (getProperty personalities style) with value
    by (unfold getProperty; rewrite Hown; reflexivity).
  unfold or_else. rewrite Hfalsy.
  destruct (truthy (getProperty personalities "default")); reflexivity.
Qed.

Lemma falsy_persona_uses_default_witness :
  (assoc "hacker" (loadPersonalities JSONText.parse (Some userPersonas)) = Some (JString "")
   /\ truthy (JString "") = false)
  /\ buildSystemPrompt "hacker" (loadPersonalities JSONText.parse (Some userPersonas))
     = buildSystemPrompt "default" (loadPersonalities JSONText.parse (Some userPersonas))
  /\ buildSystemPrompt "default" (loadPersonalities JSONText.parse (Some userPersonas))
     = Return Samples.defaultContext.
Proof.
  split; [split; reflexivity|]. split; [|reflexivity].
  exact (falsy_persona_uses_default "hacker"
           (loadPersonalities JSONText.parse (Some userPersonas)) (JString "")
           eq_refl eq_refl).
Defined.

End PersonaFallback.

(* ===================================================================== *)
(** ** What the dispatchers leave alone *)
(* ===================================================================== *)

Section Frames.
Import JS IO Observe Notions.

Variable JSON_parse : string -> option JSValue.

Lemma append_assoc (a b c : string) : ((a ++ b) ++ c = a ++ (b ++ c))%string.
Proof. induction a as [|x a IH]; [reflexivity|]. cbn. rewrite IH. reflexivity. Qed.

Lemma termigpt_world model prompt apiKey w :
  snd (Termigpt.queryGemini JSON_parse model prompt apiKey w)
  = snd (fetch (requestFor model prompt apiKey) w).
Proof.
  unfold Termigpt.queryGemini.
  change (mkRequest (endpointFor model apiKey) "POST" (contentsOf prompt))
    with (requestFor model prompt apiKey).
  destruct (fetch _ w) as [[res|] w1]; [|reflexivity].
  destruct (negb (ok res)); [reflexivity|].
  destruct (JSON_parse (body res)); reflexivity.
Qed.

Lemma fetch_frame req w :
  terminal (snd (fetch req w)) = terminal w /\ logged (snd (fetch req w)) = logged w.
Proof. unfold fetch. destruct (wire w); split; reflexivity. Qed.

Lemma termigpt_quiet : quiet (Termigpt.queryGemini JSON_parse).
Proof.
  intros model prompt apiKey w. rewrite termigpt_world.
  destruct (fetch_frame (requestFor model prompt apiKey) w) as [Ht Hl].
  rewrite Ht, Hl. split; [reflexivity|]. intros answer H. exact H.
Qed.

Lemma termigpt_sends_one : sendsAtMost 1 (Termigpt.queryGemini JSON_parse).
Proof.
  intros model prompt apiKey w. rewrite termigpt_world, fetch_sent.
  exists [requestFor model prompt apiKey]. split; [reflexivity|]. cbn. lia.
Qed.

(** The world after a dispatch of AskIt: one fetch, or a fetch, the notice
    and a second fetch. *)
Lemma askit_world model prompt apiKey w :
  let first := requestFor (Askit.currentModel model) prompt apiKey in
  let second := requestFor Askit.STABLE_FALLBACK_MODEL prompt apiKey in
  snd (Askit.queryGemini JSON_parse model prompt apiKey w) = snd (fetch first w)
  \/ snd (Askit.queryGemini JSON_parse model prompt apiKey w)
     = snd (fetch second (write (FallbackNotice model) (snd (fetch first w)))).
Proof.
  cbv zeta. rewrite queryGemini_step.
  destruct (fetch _ w) as [[res|] w1]; [|left; reflexivity].
  destruct (negb (ok res) && (status res =? 404)%nat
            && negb (Askit.currentModel model =? Askit.STABLE_FALLBACK_MODEL)).
  - right. rewrite queryGemini_fallback. cbn [snd].
    destruct (fetch _ (write _ w1)) as [[res2|] w2]; reflexivity.
  - left. reflexivity.
Qed.

Lemma askit_quiet : quiet (Askit.queryGemini JSON_parse).
Proof.
  intros model prompt apiKey w.
  destruct (askit_world model prompt apiKey w) as [H|H]; cbv zeta in H; rewrite H.
  - destruct (fetch_frame (requestFor (Askit.currentModel model) prompt apiKey) w) as [Ht Hl].
    rewrite Ht, Hl. split; [reflexivity|]. intros answer Hin. exact Hin.
  - match goal with |- context [fetch ?r (write ?o ?x)] =>
      destruct (fetch_frame r (write o x)) as [Ht Hl] end.
    rewrite Ht, Hl. cbn [write terminal logged].
    destruct (fetch_frame (requestFor (Askit.currentModel model) prompt apiKey) w) as [Ht1 Hl1].
    rewrite Ht1, Hl1. split; [reflexivity|].
    intros answer Hin. apply in_app_or in Hin. destruct Hin as [Hin|[Hin|[]]].
    + exact Hin.
    + discriminate Hin.
Qed.

Lemma askit_sends_two : sendsAtMost 2 (Askit.queryGemini JSON_parse).
Proof.
  intros model prompt apiKey w.
  destruct (askit_world model prompt apiKey w) as [H|H]; cbv zeta in H; rewrite H.
  - rewrite fetch_sent. eexists. split; [reflexivity|]. cbn. lia.
  - rewrite fetch_sent. cbn [write sent]. rewrite fetch_sent, <- app_assoc.
    eexists. split; [reflexivity|]. cbn. lia.
Qed.

End Frames.

Section Lines.
Import JS Observe Notions.

Lemma dispatched_dispatchable line : dispatched line = true <-> dispatchable line.
Proof.
  unfold dispatched, dispatchable. rewrite !andb_true_iff, !negb_true_iff.
  rewrite !String.eqb_neq. tauto.
Qed.

End Lines.

(* ===================================================================== *)
(** ** The modes over a dispatcher that is quiet and sends a bounded number
       of requests *)
(* ===================================================================== *)

Section ModesOverDispatcher.
Import JS IO Persona Chat Observe Notions.

Variable JSON_parse : string -> option JSValue.
Variable queryGemini : Dispatcher.
Variable bound : nat.
Hypothesis isQuiet : quiet queryGemini.
Hypothesis isBounded : sendsAtMost bound queryGemini.

Lemma singleShot_requests question style long model apiKey userFile w systemPrompt :
  buildSystemPrompt style (loadPersonalities JSON_parse userFile) = Return systemPrompt ->
  sent (snd (Single.singleShot JSON_parse queryGemini question style long model apiKey
                               userFile w))
  = sent (snd (queryGemini model (Single.promptOf systemPrompt question long) apiKey w)).
Proof.
  intros Hbuilt. unfold Single.singleShot. rewrite Hbuilt.
  destruct (queryGemini _ _ _ w) as [result w1].
  destruct (bind result ToString); reflexivity.
Qed.

Lemma singleShot_log question style long model apiKey userFile w :
  let run := Single.singleShot JSON_parse queryGemini question style long model apiKey
                               userFile w in
  match fst run with
  | Return _ =>
      exists answer,
        logged (snd run) = (logged w ++ exchangeLines (question, answer))%list
        /\ In (Answer answer) (terminal (snd run))
  | Throw _ =>
      logged (snd run) = logged w
      /\ (forall answer,
            In (Answer answer) (terminal (snd run)) -> In (Answer answer) (terminal w))
  end.
Proof.
  cbv zeta. unfold Single.singleShot.
  destruct (buildSystemPrompt style _) as [systemPrompt|e].
  - pose proof (isQuiet model (Single.promptOf systemPrompt question long) apiKey w) as [Hl Ht].
    destruct (queryGemini _ _ _ w) as [result w1]. cbn [snd] in Hl, Ht.
    destruct (bind result ToString) as [answer|e]; cbn [fst snd].
    + exists answer. cbn [logLine write logged terminal]. rewrite Hl, <- app_assoc.
      split; [reflexivity|]. apply in_or_app. right. left. reflexivity.
    + split; [exact Hl|exact Ht].
  - cbn [fst snd]. split; [reflexivity|]. intros answer H. exact H.
Qed.

Lemma onLine_not_dispatched s line w :
  dispatched line = false ->
  sent (snd (Chat.onLine queryGemini s line w)) = sent w
  /\ logged (snd (Chat.onLine queryGemini s line w)) = logged w
  /\ wire (snd (Chat.onLine queryGemini s line w)) = wire w.
Proof.
  intros H. unfold dispatched in H. unfold Chat.onLine.
  destruct (closed s); [repeat split|].
  destruct (trim line =? ""); [repeat split|].
  destruct (trim line =? ":exit"); [repeat split|].
  destruct (trim line =? ":clear"); [|discriminate H].
  destruct (buildSystemPrompt _ _); repeat split.
Qed.

Lemma onLine_log s line w :
  logged (snd (Chat.onLine queryGemini s line w)) = logged w
  \/ exists answer,
       dispatched line = true
       /\ logged (snd (Chat.onLine queryGemini s line w))
          = (logged w ++ exchangeLines (trim line, answer))%list.
Proof.
  destruct (dispatched line) eqn:D.
  - destruct (closed s) eqn:Hopen.
    + left. rewrite onLine_closed by exact Hopen. reflexivity.
    + apply dispatched_dispatchable in D.
      rewrite (onLine_dispatch queryGemini s line w Hopen D).
      pose proof (isQuiet (model s) (turnPrompt (context s) (trim line) (long s))
                          (apiKey s) w) as [Hl _].
      destruct (queryGemini _ _ _ w) as [result w1]. cbn [snd] in Hl |- *.
      destruct (bind result ToString) as [answer|e].
      * right. exists answer. split; [reflexivity|].
        cbn [logLine write logged]. rewrite Hl, <- app_assoc. reflexivity.
      * left. exact Hl.
  - left. exact (proj1 (proj2 (onLine_not_dispatched s line w D))).
Qed.

Lemma onLines_log s lines w :
  exists exchanges,
    logged (snd (Chat.onLines queryGemini s lines w))
    = (logged w ++ flat_map exchangeLines exchanges)%list
    /\ Forall (fun exchange =>
                 exists line, In line lines /\ dispatched line = true
                              /\ fst exchange = trim line) exchanges.
Proof.
  revert s w. induction lines as [|line lines IH]; intros s w.
  - exists []. cbn. rewrite app_nil_r. split; [reflexivity|constructor].
  - cbn [Chat.onLines].
    pose proof (onLine_log s line w) as H1.
    destruct (Chat.onLine queryGemini s line w) as [s1 w1]. cbn [snd] in H1.
    destruct (IH s1 w1) as (exchanges & Hlog & Hall).
    assert (Hall' : Forall (fun exchange =>
                      exists l, In l (line :: lines) /\ dispatched l = true
                                /\ fst exchange = trim l) exchanges).
    { eapply Forall_impl; [|exact Hall].
      intros e (l & Hin & Hd & He). exists l. split; [right; exact Hin|split; assumption]. }
    destruct H1 as [H1|(answer & Hd & H1)].
    + exists exchanges. rewrite Hlog, H1. split; [reflexivity|exact Hall'].
    + exists ((trim line, answer) :: exchanges). rewrite Hlog, H1, <- app_assoc.
      split; [reflexivity|]. constructor; [|exact Hall'].
      exists line. split; [left; reflexivity|split; [exact Hd|reflexivity]].
Qed.

Lemma onLine_sent s line w :
  exists more,
    sent (snd (Chat.onLine queryGemini s line w)) = (sent w ++ more)%list
    /\ List.length more <= if dispatched line then bound else 0.
Proof.
  destruct (dispatched line) eqn:D.
  - destruct (closed s) eqn:Hopen.
    + exists []. rewrite onLine_closed by exact Hopen. rewrite app_nil_r.
      split; [reflexivity|cbn; lia].
    + apply dispatched_dispatchable in D.
      destruct (onLine_dispatch_sent queryGemini s line w Hopen D) as [_ Hs].
      rewrite Hs. apply isBounded.
  - exists []. rewrite app_nil_r.
    split; [exact (proj1 (onLine_not_dispatched s line w D))|cbn; lia].
Qed.

Lemma onLines_sent s lines w :
  exists more,
    sent (snd (Chat.onLines queryGemini s lines w)) = (sent w ++ more)%list
    /\ List.length more <= bound * List.length (filter dispatched lines).
Proof.
  revert s w. induction lines as [|line lines IH]; intros s w.
  - exists []. cbn. rewrite app_nil_r. split; [reflexivity|lia].
  - cbn [Chat.onLines filter].
    destruct (onLine_sent s line w) as (m1 & H1 & B1).
    destruct (Chat.onLine queryGemini s line w) as [s1 w1]. cbn [snd] in H1.
    destruct (IH s1 w1) as (m2 & H2 & B2).
    exists (m1 ++ m2)%list. rewrite H2, H1, <- app_assoc. split; [reflexivity|].
    rewrite length_app. destruct (dispatched line); cbn [List.length]; lia.
Qed.

Lemma onLines_app s before after w :
  Chat.onLines queryGemini s (before ++ after) w
  = Chat.onLines queryGemini (fst (Chat.onLines queryGemini s before w)) after
                 (snd (Chat.onLines queryGemini s before w)).
Proof.
  revert s w. induction before as [|line before IH]; intros s w; [reflexivity|].
  cbn [app Chat.onLines]. destruct (Chat.onLine queryGemini s line w) as [s1 w1]. apply IH.
Qed.

Lemma onLine_exit s line w :
  trim line = ":exit" -> closed (fst (Chat.onLine queryGemini s line w)) = true.
Proof.
  intros H. unfold Chat.onLine. destruct (closed s) eqn:E; [exact E|].
  rewrite H. reflexivity.
Qed.

End ModesOverDispatcher.

(* ===================================================================== *)
(** ** The modes when logging can fail *)
(* ===================================================================== *)

Section JournalOverDispatcher.
Import JS IO Persona Chat Observe Notions.

Variable failure : option string.
Variable JSON_parse : string -> option JSValue.
Variable queryGemini : Dispatcher.

(** With a log that can be written, the modes are the ones above. *)
Lemma journal_singleShot_agrees question style long model apiKey userFile w :
  Journal.singleShot None JSON_parse queryGemini question style long model apiKey userFile w
  = Single.singleShot JSON_parse queryGemini question style long model apiKey userFile w.
Proof.
  unfold Journal.singleShot, Single.singleShot.
  destruct (buildSystemPrompt style _); [|reflexivity].
  destruct (queryGemini _ _ _ w) as [result w1].
  destruct (bind result ToString); reflexivity.
Qed.

Lemma journal_onLine_agrees s line w :
  Journal.onLine None queryGemini s line w = Chat.onLine queryGemini s line w.
Proof.
  unfold Journal.onLine, Chat.onLine.
  destruct (closed s); [reflexivity|].
  destruct (trim line =? ""); [reflexivity|].
  destruct (trim line =? ":exit"); [reflexivity|].
  destruct (trim line =? ":clear"); [reflexivity|].
  destruct (queryGemini _ _ _ w) as [result w1].
  destruct (bind result ToString); reflexivity.
Qed.

Hypothesis isQuiet : quiet queryGemini.

Lemma journal_singleShot_log question style long model apiKey userFile w :
  let run := Journal.singleShot failure JSON_parse queryGemini question style long model
                                apiKey userFile w in
  match fst run with
  | Return _ =>
      failure = None
      /\ exists answer,
           logged (snd run) = (logged w ++ exchangeLines (question, answer))%list
           /\ In (Answer answer) (terminal (snd run))
  | Throw e =>
      logged (snd run) = logged w
      /\ (failure = None ->
          forall answer,
            In (Answer answer) (terminal (snd run)) -> In (Answer answer) (terminal w))
      /\ (forall answer,
            In (Answer answer) (terminal (snd run)) ->
            ~ In (Answer answer) (terminal w) ->
            exists message, failure = Some message /\ e = Error message)
  end.
Proof.
  cbv zeta. unfold Journal.singleShot.
  destruct (buildSystemPrompt style _) as [systemPrompt|e].
  - pose proof (isQuiet model (Single.promptOf systemPrompt question long) apiKey w) as [Hl Ht].
    destruct (queryGemini _ _ _ w) as [result w1]. cbn [snd] in Hl, Ht.
    destruct (bind result ToString) as [answer|e].
    + destruct failure as [message|]; cbn [Journal.logLine fst snd].
      * split; [exact Hl|]. split; [discriminate|].
        intros a _ _. exists message. split; reflexivity.
      * split; [reflexivity|]. exists answer.
        cbn [logLine write logged terminal]. rewrite Hl, <- app_assoc.
        split; [reflexivity|]. apply in_or_app. right. left. reflexivity.
    + cbn [fst snd]. split; [exact Hl|]. split; [intros _; exact Ht|].
      intros a Hin Hnot. exfalso. exact (Hnot (Ht a Hin)).
  - cbn [fst snd]. split; [reflexivity|]. split; [intros _ a H; exact H|].
    intros a Hin Hnot. exfalso. exact (Hnot Hin).
Qed.

End JournalOverDispatcher.

(* ===================================================================== *)
(** ** The single question, the interactive loop and the actions of the two
       command lines *)
(* ===================================================================== *)

Section Modes.
Import JS IO Persona Chat Credentials Observe Notions.

Variable JSON_parse : string -> option JSValue.

Local Abbreviation askit := (Askit.queryGemini JSON_parse).
Local Abbreviation termigpt := (Termigpt.queryGemini JSON_parse).

Lemma buildSystemPrompt_text style personalities text :
  assoc style personalities = Some (JString text) ->
  text <> "" ->
  buildSystemPrompt style personalities = Return (text ++ promptRules).
Proof.
  intros Hown Hne. unfold buildSystemPrompt, getProperty at 1. rewrite Hown.
  unfold or_else. cbn [truthy]. apply String.eqb_neq in Hne. rewrite Hne. reflexivity.
Qed.

(** X15. The prompt of a single question.  For a style that the merged
    mapping binds to a non-empty text, the request carries that text, the
    fixed rules, an empty line, [User: ] and the question as given, then the
    request for detail when [--long] is set.  AskIt sends it first to the
    current model name, TermiGPT sends it once to the name as given. *)
Theorem single_shot_prompt
  (question style : string) (long : bool) (model apiKey : string)
  (userFile : option string) (w : World) (text : string) :
  assoc style (loadPersonalities JSON_parse userFile) = Some (JString text) ->
  text <> "" ->
  let prompt :=
    text ++ LF ++ "Additional rules:" ++ LF ++ "- Use bullet points when helpful."
    ++ LF ++ "- Provide runnable examples when code is requested."
    ++ LF ++ "- Keep answers short unless --long is used."
    ++ LF ++ LF ++ "User: " ++ question
    ++ (if long then LF ++ "Be detailed and thorough." else "") in
  nth_error (issued w (snd (Single.singleShot JSON_parse askit question style long model
                                              apiKey userFile w))) 0
  = Some (requestFor (Askit.currentModel model) prompt apiKey)
  /\ issued w (snd (Single.singleShot JSON_parse termigpt question style long model
                                      apiKey userFile w))
     = [requestFor model prompt apiKey].
Proof.
  intros Hown Hne. cbv zeta.
  pose proof (buildSystemPrompt_text _ _ _ Hown Hne) as Hbuilt.
  assert (Hprompt : Single.promptOf (text ++ promptRules) question long
                    = text ++ LF ++ "Additional rules:" ++ LF
                      ++ "- Use bullet points when helpful."
                      ++ LF ++ "- Provide runnable examples when code is requested."
                      ++ LF ++ "- Keep answers short unless --long is used."
                      ++ LF ++ LF ++ "User: " ++ question
                      ++ (if long then LF ++ "Be detailed and thorough." else "")).
  { unfold Single.promptOf. rewrite append_assoc. reflexivity. }
  unfold issued.
  rewrite !(singleShot_requests JSON_parse _ question style long model apiKey userFile w
              _ Hbuilt), Hprompt.
  split.
  - apply (first_issued JSON_parse).
  - apply (issued_termigpt JSON_parse).
Qed.



(** X18. The requests of a session.  Lines that are blank or commands send
    nothing; over a whole session AskIt sends at most two requests for each
    dispatched line and TermiGPT at most one. *)
Theorem session_request_bound (s : Session) (lines : list string) (w : World) :
  List.length (issued w (snd (Chat.onLines askit s lines w)))
  <= 2 * List.length (filter dispatched lines)
  /\ List.length (issued w (snd (Chat.onLines termigpt s lines w)))
     <= List.length (filter dispatched lines).
Proof.
  split.
  - destruct (onLines_sent askit 2 (askit_sends_two JSON_parse) s lines w) as (more & H & B).
    rewrite (issued_app _ _ _ H). exact B.
  - destruct (onLines_sent termigpt 1 (termigpt_sends_one JSON_parse) s lines w)
      as (more & H & B).
    rewrite (issued_app _ _ _ H). lia.
Qed.

(** X20. A failed dispatch in the interactive loop.  When the line is
    answered without success status (for AskIt, other than 404), the error
    is written to the terminal, followed by the prompt; nothing is logged,
    the session stays open and is otherwise as before. *)
Theorem chat_failure_is_reported
  (s : Session) (line : string) (w : World) (res : Response) (rest : list Outcome) :
  closed s = false ->
  dispatchable line ->
  wire w = Responded res :: rest ->
  ok res = false ->
  status res <> 404 ->
  let prompt := context s ++ LF ++ "User: " ++ trim line
                ++ (if long s then LF ++ "Be detailed and thorough." else "") in
  Chat.onLine askit s line w
  = (s, mkWorld rest
          (sent w ++ [requestFor (Askit.currentModel (model s)) prompt (apiKey s)])
          (terminal w ++ [ErrorMessage (RemoteError res); Prompt]) (logged w))
  /\ Chat.onLine termigpt s line w
     = (s, mkWorld rest (sent w ++ [requestFor (model s) prompt (apiKey s)])
             (terminal w ++ [ErrorMessage (RemoteError res); Prompt]) (logged w)).
Proof.
  intros Hopen Hline Hw Hok H404. cbv zeta. split.
  - rewrite (onLine_dispatch askit s line w Hopen Hline).
    unfold turnPrompt.
    rewrite (queryGemini_final JSON_parse _ _ _ w res rest Hw (or_intror (or_introl H404))).
    unfold conclude. rewrite Hok. cbn [negb bind]. unfold write.
    cbn [terminal sent wire logged]. rewrite <- app_assoc. reflexivity.
  - rewrite (onLine_dispatch termigpt s line w Hopen Hline).
    unfold turnPrompt, Termigpt.queryGemini.
    rewrite (fetch_responded _ _ _ _ Hw), Hok.
    cbn [negb bind]. unfold write.
    cbn [terminal sent wire logged]. rewrite <- app_assoc. reflexivity.
Qed.


Lemma getAPIKey_nothing guarded host :
  blank (envKey host) -> blank (configFile host) -> trim (typed host) = "" ->
  getAPIKey guarded host = mkKeyRun NoKeyProvided (configFile host) true false.
Proof.
  intros Henv Hcfg Htyped. unfold getAPIKey.
  rewrite (keyOfEnvironment_blank host Henv), (keyOfConfig_blank host Hcfg).
  unfold keyOfUser, promptHidden. rewrite Htyped. reflexivity.
Qed.

(** X22. Without a key no request is made.  When the environment, the saved
    file and the entry are all blank, both actions end with the failure
    exit, whether a question was given or not, and the world is as it was:
    nothing sent, nothing printed by the modes, nothing logged. *)
Theorem no_key_no_request
  (questionParts : list string) (opts : Cli.Options) (host : Host)
  (userFile : option string) (w : World) :
  blank (envKey host) ->
  blank (configFile host) ->
  trim (typed host) = "" ->
  Cli.askit JSON_parse questionParts opts host userFile w
  = Cli.mkRun (Cli.ExitedWithFailure (Cli.NoKey NoKeyProvided)) (configFile host) w
  /\ (Cli.ui opts = false ->
      Cli.termigpt JSON_parse questionParts opts host userFile w
      = Cli.mkRun (Cli.ExitedWithFailure (Cli.NoKey NoKeyProvided)) (configFile host) w).
Proof.
  intros Henv Hcfg Htyped. split.
  - unfold Cli.askit, Cli.dispatchMode.
    rewrite (getAPIKey_nothing true host Henv Hcfg Htyped). cbn [outcome configAfter].
    destruct (Cli.chat opts || (List.length questionParts =? 0)%nat); reflexivity.
  - intros Hui. unfold Cli.termigpt, Cli.dispatchMode. rewrite Hui.
    rewrite (getAPIKey_nothing false host Henv Hcfg Htyped). cbn [outcome configAfter].
    destruct (Cli.chat opts || (List.length questionParts =? 0)%nat); reflexivity.
Qed.

(** X23. Starting the interactive loop.  With [--chat], or without a
    question, both actions start the interactive loop once the key is
    resolved and the prompt is built: the run ends waiting for lines, with
    an open session that holds the options, the key, the merged personas
    and the built prompt as context, after writing the first prompt.  In
    every case such a start leaves the requests sent, the pending network
    outcomes and the log as they were, even when a question was given with
    [--chat]: that question is dropped.  With [--ui], TermiGPT only spawns
    the front end: no key is resolved and no mode is run. *)
Theorem startup_of_the_loop_sends_nothing
  (questionParts : list string) (opts : Cli.Options) (host : Host)
  (userFile : option string) (w : World) :
  (Cli.chat opts = true \/ questionParts = [] ->
   forall run,
     run = Cli.askit JSON_parse questionParts opts host userFile w
     \/ (Cli.ui opts = false
         /\ run = Cli.termigpt JSON_parse questionParts opts host userFile w) ->
     sent (Cli.world run) = sent w
     /\ wire (Cli.world run) = wire w
     /\ logged (Cli.world run) = logged w
     /\ Cli.ended run <> Cli.Completed)
  /\ (Cli.chat opts = true \/ questionParts = [] ->
      forall apiKey context,
        buildSystemPrompt (Cli.style opts) (loadPersonalities JSON_parse userFile)
        = Return context ->
        let started :=
          Cli.Chatting (mkSession (Cli.style opts) (Cli.long opts) (Cli.model opts) apiKey
                                  (loadPersonalities JSON_parse userFile) context false) in
        (outcome (getAPIKey true host) = KeyResolved apiKey ->
         Cli.askit JSON_parse questionParts opts host userFile w
         = Cli.mkRun started (configAfter (getAPIKey true host)) (write Prompt w))
        /\ (Cli.ui opts = false ->
            outcome (getAPIKey false host) = KeyResolved apiKey ->
            Cli.termigpt JSON_parse questionParts opts host userFile w
            = Cli.mkRun started (configAfter (getAPIKey false host)) (write Prompt w)))
  /\ (Cli.ui opts = true ->
      Cli.termigpt JSON_parse questionParts opts host userFile w
      = Cli.mkRun (Cli.LaunchedUI (Cli.tojapan opts)) (configFile host) w).
Proof.
  assert (Hcond : Cli.chat opts = true \/ questionParts = [] ->
                  Cli.chat opts || (List.length questionParts =? 0)%nat = true).
  { intros [H|H]; [rewrite H; reflexivity|]. subst questionParts. apply orb_true_r. }
  split; [|split].
  - intros Hmode run Hrun.
    assert (Hloop : forall q key,
              let r := Cli.dispatchMode JSON_parse q questionParts opts key userFile w in
              sent (Cli.world r) = sent w /\ wire (Cli.world r) = wire w
              /\ logged (Cli.world r) = logged w /\ Cli.ended r <> Cli.Completed).
    { intros q key. cbv zeta. unfold Cli.dispatchMode. rewrite (Hcond Hmode).
      destruct (outcome key); try (repeat split; discriminate).
      unfold Chat.chatMode. destruct (buildSystemPrompt _ _); repeat split; discriminate. }
    destruct Hrun as [H|[Hui H]]; subst run.
    + apply Hloop.
    + unfold Cli.termigpt. rewrite Hui. apply Hloop.
  - intros Hmode apiKey context Hbuilt. cbv zeta.
    assert (Hstart : forall q key,
              outcome key = KeyResolved apiKey ->
              Cli.dispatchMode JSON_parse q questionParts opts key userFile w
              = Cli.mkRun
                  (Cli.Chatting (mkSession (Cli.style opts) (Cli.long opts) (Cli.model opts)
                                           apiKey (loadPersonalities JSON_parse userFile)
                                           context false))
                  (configAfter key) (write Prompt w)).
    { intros q key Hkey. unfold Cli.dispatchMode. rewrite (Hcond Hmode), Hkey.
      unfold Chat.chatMode. rewrite Hbuilt. reflexivity. }
    split.
    + intros Hkey. unfold Cli.askit. apply Hstart. exact Hkey.
    + intros Hui Hkey. unfold Cli.termigpt. rewrite Hui. apply Hstart. exact Hkey.
  - intros Hui. unfold Cli.termigpt. rewrite Hui. reflexivity.
Qed.

End Modes.

Section ExitCommand.
Import JS IO Chat Notions.

Variable queryGemini : Dispatcher.

(** X19. After the exit command nothing is handled: whatever is typed after
    a line that is [:exit] changes neither the session nor the world. *)
Theorem lines_after_exit_are_dead
  (s : Session) (before after : list string) (line : string) (w : World) :
  trim line = ":exit" ->
  Chat.onLines queryGemini s (before ++ line :: after) w
  = Chat.onLines queryGemini s (before ++ [line]) w
  /\ closed (fst (Chat.onLines queryGemini s (before ++ [line]) w)) = true.
Proof.
  intros Hexit.
  assert (Hclosed : closed (fst (Chat.onLines queryGemini s (before ++ [line]) w)) = true).
  { rewrite onLines_app. cbn [Chat.onLines].
    pose proof (onLine_exit queryGemini
                  (fst (Chat.onLines queryGemini s before w)) line
                  (snd (Chat.onLines queryGemini s before w)) Hexit) as H.
    destruct (Chat.onLine queryGemini _ line _) as [s1 w1]. exact H. }
  split; [|exact Hclosed].
  change (before ++ line :: after)%list with (before ++ [line] ++ after)%list.
  rewrite app_assoc, onLines_app.
  rewrite (onLines_closed queryGemini _ after _ Hclosed).
  destruct (Chat.onLines queryGemini s (before ++ [line]) w). reflexivity.
Qed.

End ExitCommand.

(* ===================================================================== *)
(** ** More on the full-screen front end *)
(* ===================================================================== *)

Section FrontEnd.
Import JS IO InkUI Observe Notions.

Variable JSON_parse : string -> option JSValue.
Variable API_KEY : string.

(** X24. An answered submission.  When the input is not blank and the
    response parses, the message list gains the input as typed, as a user
    message, then the reply; the input is cleared and the front end is no
    longer loading.  The one request sent carries the input alone, as typed:
    no persona text and none of the earlier messages. *)
Theorem submission_is_answered
  (ui : UI) (w : World) (res : Response) (rest : list Outcome) (data : JSValue) :
  trim (input ui) <> "" ->
  wire w = Responded res :: rest ->
  JSON_parse (body res) = Some data ->
  handleSubmit JSON_parse API_KEY ui w
  = (mkUI (messages ui
           ++ [mkMessage "user" (JString (input ui));
               mkMessage "assistant" (or_else (replyText data) (JString "(no response)"))])
          "" false (mounted ui) (onSIGINT ui) (onExit ui),
     mkWorld rest
       (sent w ++ [requestFor "gemini-2.0-flash" (input ui) API_KEY])
       (terminal w) (logged w)).
Proof.
  intros Hinput Hw Hparse. unfold handleSubmit, queryGemini.
  apply String.eqb_neq in Hinput. rewrite Hinput.
  rewrite (fetch_responded _ _ _ _ Hw), Hparse.
  unfold setLoading, setMessages, setInput.
  cbn [messages input loading mounted onSIGINT onExit].
  rewrite <- app_assoc. reflexivity.
Qed.

(** X25. A failed submission.  When the request is rejected or the body of
    the response does not parse, the message of the user stays in the list
    without a reply, the input is cleared, and the front end remains
    loading: nothing resets it. *)
Theorem failed_submission_keeps_loading
  (ui : UI) (w : World) (res : Response) (rest : list Outcome) :
  trim (input ui) <> "" ->
  wire w = Rejected :: rest
  \/ (wire w = Responded res :: rest /\ JSON_parse (body res) = None) ->
  fst (handleSubmit JSON_parse API_KEY ui w)
  = mkUI (messages ui ++ [mkMessage "user" (JString (input ui))])
         "" true (mounted ui) (onSIGINT ui) (onExit ui).
Proof.
  intros Hinput Hfail. unfold handleSubmit, queryGemini.
  apply String.eqb_neq in Hinput. rewrite Hinput.
  destruct Hfail as [Hw|[Hw Hparse]].
  - unfold fetch. rewrite Hw. reflexivity.
  - rewrite (fetch_responded _ _ _ _ Hw), Hparse. reflexivity.
Qed.

Lemma handleSubmit_requests ui w :
  exists added,
    messages (fst (handleSubmit JSON_parse API_KEY ui w)) = (messages ui ++ added)%list
    /\ sent (snd (handleSubmit JSON_parse API_KEY ui w))
       = (sent w ++ flat_map (requestsOf API_KEY) added)%list.
Proof.
  unfold handleSubmit.
  destruct (trim (input ui) =? "").
  - exists []. cbn [fst snd flat_map]. rewrite !app_nil_r. split; reflexivity.
  - unfold queryGemini.
    pose proof (fetch_sent (mkRequest (endpointFor MODEL API_KEY) "POST"
                                      (contentsOf (input ui))) w) as Hs.
    destruct (fetch _ w) as [[res|] w1]; cbn [snd] in Hs.
    + destruct (JSON_parse (body res)) as [data|].
      * exists [mkMessage "user" (JString (input ui));
                mkMessage "assistant" (or_else (replyText data) (JString "(no response)"))].
        cbn [fst snd]. split.
        -- unfold setLoading, setMessages, setInput.
           cbn [messages]. rewrite <- app_assoc. reflexivity.
        -- rewrite Hs. reflexivity.
      * exists [mkMessage "user" (JString (input ui))]. cbn [fst snd].
        split; [reflexivity|rewrite Hs; reflexivity].
    + exists [mkMessage "user" (JString (input ui))]. cbn [fst snd].
      split; [reflexivity|rewrite Hs; reflexivity].
Qed.

(** X26. Messages and requests of the front end.  A submission of a blank
    input changes nothing and sends nothing, alone or inside any sequence
    of gestures.  However the front end is driven, the message list only
    grows, and the requests sent are, in order, one for each user message
    added, carrying the text of that message and nothing else. *)
Theorem requests_mirror_user_messages (gestures : list Gesture) (ui : UI) (w : World) :
  (trim (input ui) = "" ->
   handleSubmit JSON_parse API_KEY ui w = (ui, w)
   /\ drive JSON_parse API_KEY (Submitted :: gestures) ui w
      = drive JSON_parse API_KEY gestures ui w)
  /\ exists added,
       messages (fst (drive JSON_parse API_KEY gestures ui w)) = (messages ui ++ added)%list
       /\ sent (snd (drive JSON_parse API_KEY gestures ui w))
          = (sent w ++ flat_map (requestsOf API_KEY) added)%list.
Proof.
  split.
  - intros Hblank.
    assert (H : handleSubmit JSON_parse API_KEY ui w = (ui, w))
      by (unfold handleSubmit; rewrite Hblank; reflexivity).
    split; [exact H|]. cbn [drive]. rewrite H. reflexivity.
  - revert ui w. induction gestures as [|g gestures IH]; intros ui w.
    + exists []. cbn. rewrite !app_nil_r. split; reflexivity.
    + destruct g as [value|]; cbn [drive].
      * destruct (IH (setInput value ui) w) as (added & Hm & Hs).
        exists added. split; [exact Hm|exact Hs].
      * destruct (handleSubmit_requests ui w) as (a1 & Hm1 & Hs1).
        destruct (handleSubmit JSON_parse API_KEY ui w) as [ui1 w1].
        cbn [fst snd] in Hm1, Hs1.
        destruct (IH ui1 w1) as (a2 & Hm2 & Hs2).
        exists (a1 ++ a2)%list. rewrite Hm2, Hs2, Hm1, Hs1, flat_map_app, <- !app_assoc.
        split; reflexivity.
Qed.

End FrontEnd.

Section LogFiles.
Import JS IO InkUI.

Lemma append_length (a b : string) :
  String.length (a ++ b) = String.length a + String.length b.
Proof. induction a as [|c a IH]; [reflexivity|]. cbn. rewrite IH. reflexivity. Qed.

Lemma append_same_tail (a b tail : string) : (a ++ tail = b ++ tail)%string -> a = b.
Proof.
  revert b. induction a as [|c a IH]; intros [|d b] H.
  - reflexivity.
  - apply (f_equal String.length) in H. cbn in H. rewrite append_length in H. lia.
  - apply (f_equal String.length) in H. cbn in H. rewrite append_length in H. lia.
  - cbn in H. inversion H. f_equal. apply IH. assumption.
Qed.

Lemma N_to_uint_not_nil (n : N) : N.to_uint n <> Decimal.Nil.
Proof.
  destruct n as [|p]; [discriminate|]. apply DecimalPos.Unsigned.to_uint_nonnil.
Qed.

(** Two instants have the same file name only when they are the same. *)
Lemma logFileName_injective (a b : N) : logFileName a = logFileName b -> a = b.
Proof.
  unfold logFileName. intros H. cbn in H. inversion H as [Hdigits].
  apply append_same_tail in Hdigits.
  apply (f_equal NilZero.uint_of_string) in Hdigits.
  rewrite !NilZero.usu in Hdigits by apply N_to_uint_not_nil.
  inversion Hdigits as [Huint].
  apply (f_equal N.of_uint) in Huint. rewrite !DecimalN.Unsigned.of_to in Huint.
  exact Huint.
Qed.

Lemma fileContent_last name (disk : Disk) n data :
  fileContent name (disk ++ [(n, data)])%list
  = if n =? name then Some data else fileContent name disk.
Proof.
  induction disk as [|[n0 d0] later IH].
  - cbn. destruct (n =? name); reflexivity.
  - cbn [app fileContent]. rewrite IH.
    destruct (n =? name); [reflexivity|].
    destruct (fileContent name later); reflexivity.
Qed.

(** X27. Reading back a saved transcript.  After [saveLog] the file named
    after the instant holds the transcript of the messages, and the file of
    any other instant holds what it held: saves at different milliseconds
    never overwrite each other. *)
Theorem saved_transcript_reads_back
  (messages : list Message) (now : N) (disk saved : Disk) :
  saveLog messages now disk = Return saved ->
  (exists data,
     transcript messages = Return data
     /\ fileContent (logFileName now) saved = Some data)
  /\ (forall other,
        other <> now ->
        fileContent (logFileName other) saved = fileContent (logFileName other) disk).
Proof.
  unfold saveLog. destruct (transcript messages) as [data|e]; cbn [bind]; [|discriminate].
  intros H. inversion H. subst saved. split.
  - exists data. split; [reflexivity|].
    rewrite fileContent_last, String.eqb_refl. reflexivity.
  - intros other Hother. rewrite fileContent_last.
    destruct (logFileName now =? logFileName other) eqn:E; [|reflexivity].
    apply String.eqb_eq, logFileName_injective in E. congruence.
Qed.

End LogFiles.

(* ===================================================================== *)
(** ** These properties on sample inputs *)
(* ===================================================================== *)

Section MoreRuns.
Import JS IO Persona Chat Credentials Observe Notions Samples Inputs.

Local Abbreviation askit := (Askit.queryGemini JSONText.parse).
Local Abbreviation termigpt := (Termigpt.queryGemini JSONText.parse).

(** The question of the README to the hacker persona. *)
Lemma single_shot_prompt_witness :
  let w := online [okReply "hi"] in
  let prompt :=
    "You're a cool, terse, command-line-loving hacker mentor. Prefer shell snippets and minimal prose."
    ++ LF ++ "Additional rules:" ++ LF ++ "- Use bullet points when helpful."
    ++ LF ++ "- Provide runnable examples when code is requested."
    ++ LF ++ "- Keep answers short unless --long is used."
    ++ LF ++ LF ++ "User: What is recursion?" in
  (assoc "hacker" (loadPersonalities JSONText.parse None)
   = Some (JString "You're a cool, terse, command-line-loving hacker mentor. Prefer shell snippets and minimal prose.")
   /\ "You're a cool, terse, command-line-loving hacker mentor. Prefer shell snippets and minimal prose." <> "")
  /\ nth_error (issued w (snd (Single.singleShot JSONText.parse askit "What is recursion?"
                                "hacker" false "gemini-pro" "KEY" None w))) 0
     = Some (requestFor "gemini-2.5-pro" prompt "KEY")
  /\ issued w (snd (Single.singleShot JSONText.parse termigpt "What is recursion?"
                      "hacker" false "gemini-pro" "KEY" None w))
     = [requestFor "gemini-pro" prompt "KEY"].
Proof.
  cbv zeta.
  assert (Hne : "You're a cool, terse, command-line-loving hacker mentor. Prefer shell snippets and minimal prose." <> "")
    by discriminate.
  split; [split; [reflexivity|exact Hne]|].
  exact (single_shot_prompt JSONText.parse "What is recursion?" "hacker" false "gemini-pro"
           "KEY" None (online [okReply "hi"]) _ eq_refl Hne).
Defined.



Lemma lines_after_exit_are_dead_witness :
  let w := online [okReply "one"; okReply "two"] in
  trim " :exit" = ":exit"
  /\ Chat.onLines askit session (["hello"] ++ " :exit" :: ["anyone there?"; ":clear"]) w
     = Chat.onLines askit session (["hello"] ++ [" :exit"]) w
  /\ List.length (sent (snd (Chat.onLines askit session
                               (["hello"] ++ " :exit" :: ["anyone there?"; ":clear"]) w))) = 1.
Proof.
  cbv zeta. split; [reflexivity|]. split; [|reflexivity].
  exact (proj1 (lines_after_exit_are_dead askit session ["hello"] ["anyone there?"; ":clear"]
                  " :exit" (online [okReply "one"; okReply "two"]) eq_refl)).
Defined.

Lemma chat_failure_is_reported_witness :
  let w := online [serverError; okReply "late"] in
  (closed session = false /\ dispatchable "hello"
   /\ wire w = Responded serverError :: [Responded (okReply "late")]
   /\ ok serverError = false /\ status serverError <> 404)
  /\ Chat.onLine askit session "hello" w
     = (session,
        mkWorld [Responded (okReply "late")]
          [requestFor "gemini-2.5-flash" (defaultContext ++ LF ++ "User: hello") "KEY"]
          [ErrorMessage (RemoteError serverError); Prompt] []).
Proof.
  cbv zeta.
  assert (Hline : dispatchable "hello") by (repeat split; vm_compute; discriminate).
  assert (H404 : status serverError <> 404) by (vm_compute; discriminate).
  split; [split; [reflexivity|split; [exact Hline|split; [reflexivity|split;
           [reflexivity|exact H404]]]]|].
  exact (proj1 (chat_failure_is_reported JSONText.parse session "hello"
                  (online [serverError; okReply "late"]) serverError
                  [Responded (okReply "late")] eq_refl Hline eq_refl eq_refl H404)).
Defined.


Lemma no_key_no_request_witness :
  let host := mkHost None (Some " ") true "" in
  let opts := Cli.mkOptions "default" "gemini-2.5-flash" false false false false in
  (blank (envKey host) /\ blank (configFile host) /\ trim (typed host) = "")
  /\ Cli.askit JSONText.parse ["What"; "is"; "recursion?"] opts host None
               (online [okReply "hi"])
     = Cli.mkRun (Cli.ExitedWithFailure (Cli.NoKey NoKeyProvided)) (Some " ")
                 (online [okReply "hi"]).
Proof.
  cbv zeta. split; [repeat split|].
  exact (proj1 (no_key_no_request JSONText.parse ["What"; "is"; "recursion?"]
                  (Cli.mkOptions "default" "gemini-2.5-flash" false false false false)
                  (mkHost None (Some " ") true "") None (online [okReply "hi"])
                  I eq_refl eq_refl)).
Defined.

(** [--chat] with a question, and [--ui]. *)
Lemma startup_of_the_loop_sends_nothing_witness :
  let host := mkHost (Some "KEY") None true "" in
  let chatting := Cli.mkOptions "default" "gemini-2.5-flash" true false false false in
  let screen := Cli.mkOptions "default" "gemini-2.0-flash" true false true true in
  let w := online [okReply "hi"] in
  (Cli.chat chatting = true
   /\ buildSystemPrompt (Cli.style chatting) (loadPersonalities JSONText.parse None)
      = Return defaultContext
   /\ outcome (getAPIKey true host) = KeyResolved "KEY")
  /\ Cli.askit JSONText.parse ["What"; "is"; "recursion?"] chatting host None w
     = Cli.mkRun (Cli.Chatting session) None (write Prompt w)
  /\ sent (Cli.world (Cli.askit JSONText.parse ["What"; "is"; "recursion?"] chatting host
                                None w)) = []
  /\ Cli.termigpt JSONText.parse ["What"; "is"; "recursion?"] screen host None w
     = Cli.mkRun (Cli.LaunchedUI true) None w.
Proof.
  cbv zeta. split; [split; [reflexivity|split; reflexivity]|].
  destruct (startup_of_the_loop_sends_nothing JSONText.parse ["What"; "is"; "recursion?"]
              (Cli.mkOptions "default" "gemini-2.5-flash" true false false false)
              (mkHost (Some "KEY") None true "") None (online [okReply "hi"]))
    as (Hloop & Hstart & _).
  destruct (startup_of_the_loop_sends_nothing JSONText.parse ["What"; "is"; "recursion?"]
              (Cli.mkOptions "default" "gemini-2.0-flash" true false true true)
              (mkHost (Some "KEY") None true "") None (online [okReply "hi"]))
    as (_ & _ & Hscreen).
  split; [exact (proj1 (Hstart (or_introl eq_refl) "KEY" defaultContext eq_refl) eq_refl)|].
  split; [|exact (Hscreen eq_refl)].
  exact (proj1 (Hloop (or_introl eq_refl) _ (or_introl eq_refl))).
Defined.

Lemma submission_is_answered_witness :
  let ui := InkUI.setInput " hi " InkUI.mount in
  let w := online [okReply "yo"] in
  (trim (InkUI.input ui) <> "" /\ wire w = [Responded (okReply "yo")]
   /\ JSONText.parse (body (okReply "yo")) = Some (replyData "yo"))
  /\ InkUI.handleSubmit JSONText.parse "KEY" ui w
     = (InkUI.mkUI [InkUI.mkMessage "user" (JString " hi ");
                    InkUI.mkMessage "assistant" (JString "yo")]
                   "" false true (Some (InkUI.mkHandler [])) (Some (InkUI.mkHandler [])),
        mkWorld [] [requestFor "gemini-2.0-flash" " hi " "KEY"] [] []).
Proof.
  cbv zeta.
  assert (H : trim (InkUI.input (InkUI.setInput " hi " InkUI.mount)) <> "")
    by (vm_compute; discriminate).
  split; [split; [exact H|split; reflexivity]|].
  exact (submission_is_answered JSONText.parse "KEY" (InkUI.setInput " hi " InkUI.mount)
           (online [okReply "yo"]) (okReply "yo") [] (replyData "yo") H eq_refl eq_refl).
Defined.

Lemma failed_submission_keeps_loading_witness :
  let ui := InkUI.setInput "hi" InkUI.mount in
  let w := online [htmlPage] in
  (trim (InkUI.input ui) <> ""
   /\ wire w = [Responded htmlPage] /\ JSONText.parse (body htmlPage) = None)
  /\ fst (InkUI.handleSubmit JSONText.parse "KEY" ui w)
     = InkUI.mkUI [InkUI.mkMessage "user" (JString "hi")] "" true true
                  (Some (InkUI.mkHandler [])) (Some (InkUI.mkHandler [])).
Proof.
  cbv zeta.
  assert (H : trim (InkUI.input (InkUI.setInput "hi" InkUI.mount)) <> "")
    by (vm_compute; discriminate).
  split; [split; [exact H|split; reflexivity]|].
  exact (failed_submission_keeps_loading JSONText.parse "KEY"
           (InkUI.setInput "hi" InkUI.mount) (online [htmlPage]) htmlPage [] H
           (or_intror (conj eq_refl eq_refl))).
Defined.

(** A blank submission before a real one. *)
Lemma requests_mirror_user_messages_witness :
  let ui := InkUI.setInput "   " InkUI.mount in
  let w := online [okReply "yo"] in
  trim (InkUI.input ui) = ""
  /\ InkUI.handleSubmit JSONText.parse "KEY" ui w = (ui, w)
  /\ drive JSONText.parse "KEY" [Submitted; Typed "hi"; Submitted] ui w
     = drive JSONText.parse "KEY" [Typed "hi"; Submitted] ui w
  /\ sent (snd (drive JSONText.parse "KEY" [Submitted; Typed "hi"; Submitted] ui w))
     = [requestFor "gemini-2.0-flash" "hi" "KEY"].
Proof.
  cbv zeta. split; [reflexivity|].
  destruct (requests_mirror_user_messages JSONText.parse "KEY" [Typed "hi"; Submitted]
              (InkUI.setInput "   " InkUI.mount) (online [okReply "yo"])) as [Hblank _].
  destruct (Hblank eq_refl) as [Hsame Hdrive].
  split; [exact Hsame|]. split; [exact Hdrive|]. reflexivity.
Defined.

Lemma saved_transcript_reads_back_witness :
  let messages := [InkUI.mkMessage "user" (JString "hi");
                   InkUI.mkMessage "assistant" (JString "yo")] in
  let earlier := [("ui_chat_1700000000000.txt", "user: before")] in
  let data := "user: hi" ++ LF ++ LF ++ "assistant: yo" in
  let saved := (earlier ++ [("ui_chat_1700000000007.txt", data)])%list in
  InkUI.saveLog messages 1700000000007 earlier = Return saved
  /\ InkUI.fileContent "ui_chat_1700000000007.txt" saved
     = Some ("user: hi" ++ LF ++ LF ++ "assistant: yo")
  /\ InkUI.fileContent (InkUI.logFileName 1700000000000) saved
     = InkUI.fileContent (InkUI.logFileName 1700000000000) earlier.
Proof.
  cbv zeta. split; [reflexivity|]. split; [reflexivity|].
  assert (Hother : 1700000000000%N <> 1700000000007%N) by discriminate.
  exact (proj2 (saved_transcript_reads_back
                  [InkUI.mkMessage "user" (JString "hi");
                   InkUI.mkMessage "assistant" (JString "yo")]
                  1700000000007 [("ui_chat_1700000000000.txt", "user: before")] _ eq_refl)
               1700000000000%N Hother).
Defined.

End MoreRuns.
